(** * scrape_api_docs.py: a model of the documentation scraper

    The script drives one headless browser page over the eight fixed
    documentation URLs, writes one JSON file per page, then visits the Notion
    page and writes its body text, and finally prints a summary.

    Conventions of the model.
    - A Python [str] is represented by its UTF-8 encoding, a [string] of
      bytes; the files are opened with [encoding='utf-8'], so a file's
      content is the same byte string.
    - The browser, the network and the disk are an environment [Env]: an
      oracle that tells, for every call the script makes, whether the call
      raises (and with which message) and what it returns.
    - Exceptions are the subclasses of [Exception] (what [except Exception]
      catches); an exception is represented by its message, [str(e)].
    - A computation threads a [World] (files, standard output, the page, the
      trace of browser calls); the effects made before an exception stay.
    - The script is first studied with the output directory created, the
      browser session acquired and closed without error, and a standard
      output that accepts every line ([script]); the steps around the page
      visits are then allowed to raise as well ([Host], [host_script]).
    - The rendered text, the markup and the title are strings; a container
      that is not an HTML element, whose [innerText] is undefined, is
      outside the model. *)

From Stdlib Require Import String Ascii List Arith Lia Bool.
From stdpp Require Import base option list gmap strings pretty.
Import ListNotations.

Local Open Scope string_scope.
Local Open Scope list_scope.

(** ** The rendered document *)

Module Dom.

(** A node of the document tree: a text node, or an element with its local
    name, its class list and its children. *)
#[warnings="-register-all"]
Inductive Node : Type :=
| Text (data : string)
| Element (tag : string) (classes : list string) (children : list Node).

(** The selectors the script uses: a type selector (['main']), a class
    selector (['.documentation']), and comma separated lists of them. *)
Inductive Simple : Type :=
| TypeSel (name : string)
| ClassSel (name : string).

Definition Selector : Type := list Simple.

Definition simple_matches (s : Simple) (n : Node) : bool :=
  match n with
  | Text _ => false
  | Element tag classes _ =>
      match s with
      | TypeSel name => String.eqb tag name
      | ClassSel name => existsb (String.eqb name) classes
      end
  end.

Definition matches (sel : Selector) (n : Node) : bool :=
  existsb (fun s => simple_matches s n) sel.

(** A position in a tree: the child indices from the root downwards. *)
Definition Path : Type := list nat.

(** [walk sub i l]: the nodes below the children [l], numbered from [i],
    where [sub] lists the nodes of one child. *)
Fixpoint walk (sub : Node -> list (Path * Node)) (i : nat) (l : list Node)
  : list (Path * Node) :=
  match l with
  | [] => []
  | c :: l' => map (fun pn => (i :: fst pn, snd pn)) (sub c) ++ walk sub (S i) l'
  end.

(** [subtree n]: the nodes of the tree rooted at [n], [n] included, in tree
    order (preorder, depth first), each with its position. *)
Fixpoint subtree (n : Node) : list (Path * Node) :=
  ([], n) ::
  match n with
  | Text _ => []
  | Element _ _ children => walk subtree 0 children
  end.

(** The proper descendants of [n] in tree order. *)
Definition descendants (n : Node) : list (Path * Node) := tl (subtree n).

Definition children_of (n : Node) : list Node :=
  match n with
  | Text _ => []
  | Element _ _ children => children
  end.

Fixpoint node_at (p : Path) (n : Node) : option Node :=
  match p with
  | [] => Some n
  | i :: p' =>
      match nth_error (children_of n) i with
      | Some c => node_at p' c
      | None => None
      end
  end.

(** [update_nth i f l] applies [f] to the [i]-th element of [l]. *)
Fixpoint update_nth {A : Type} (i : nat) (f : A -> A) (l : list A) : list A :=
  match l, i with
  | [], _ => []
  | x :: l', O => f x :: l'
  | x :: l', S i' => x :: update_nth i' f l'
  end.

(** [update_at p f n]: the tree [n] with the node at position [p] replaced
    by its image under [f]; this is how a change made through a reference
    to a live element shows in the document. *)
Fixpoint update_at (p : Path) (f : Node -> Node) (n : Node) : Node :=
  match p with
  | [] => f n
  | i :: p' =>
      match n with
      | Text _ => n
      | Element tag classes children =>
          Element tag classes (update_nth i (update_at p' f) children)
      end
  end.

(** [document.querySelectorAll(sel)] on the tree whose document element is
    [root], and [element.querySelectorAll(sel)] on an element: the matching
    elements in tree order; an element is not among its own results. *)
Definition document_querySelectorAll (sel : Selector) (root : Node)
  : list (Path * Node) :=
  List.filter (fun pn => matches sel (snd pn)) (subtree root).

Definition element_querySelectorAll (sel : Selector) (e : Node)
  : list (Path * Node) :=
  List.filter (fun pn => matches sel (snd pn)) (descendants e).

(** [document.querySelector(sel)]: the first match in tree order, or null. *)
Definition document_querySelector (sel : Selector) (root : Node)
  : option (Path * Node) :=
  head (document_querySelectorAll sel root).

(** [document.body]: the first child of the [html] document element that is
    a [body] or a [frameset] element, or null. *)
Fixpoint first_body (i : nat) (l : list Node) : option (Path * Node) :=
  match l with
  | [] => None
  | c :: l' =>
      if matches [TypeSel "body"; TypeSel "frameset"] c
      then Some ([i], c)
      else first_body (S i) l'
  end.

Definition document_body (root : Node) : option (Path * Node) :=
  match root with
  | Element "html" _ children => first_body 0 children
  | _ => None
  end.

(** [prune sel rm l]: the children [l] without those matching [sel], the
    others cleaned by [rm]. *)
Fixpoint prune (sel : Selector) (rm : Node -> Node) (l : list Node) : list Node :=
  match l with
  | [] => []
  | c :: l' => if matches sel c then prune sel rm l' else rm c :: prune sel rm l'
  end.

(** [scripts.forEach(s => s.remove())] for [scripts] the matches of [sel]
    below an element: every matching descendant is detached from its
    parent, the element itself stays. *)
Fixpoint remove_matching (sel : Selector) (n : Node) : Node :=
  match n with
  | Text data => Text data
  | Element tag classes children =>
      Element tag classes (prune sel (remove_matching sel) children)
  end.

(** JavaScript's [a || b] on element references: an element is truthy,
    null is falsy. *)
Definition or_else {A : Type} (a b : option A) : option A :=
  match a with
  | Some x => Some x
  | None => b
  end.

(** The first match of a filter: it matches, and nothing before it does. *)
Definition first_match {A : Type} (f : A -> bool) (l : list A) (x : A) : Prop :=
  exists before after,
    l = before ++ x :: after /\ f x = true /\ Forall (fun y => f y = false) before.

(** [pc] is the first element of the document matching [sel], in tree
    order; no element of the document matches [sel]. *)
Definition first_in_tree_order (sel : Selector) (root : Node) (pc : Path * Node)
  : Prop :=
  first_match (fun pn => matches sel (snd pn)) (subtree root) pc.

Definition no_match (sel : Selector) (root : Node) : Prop :=
  Forall (fun pn => matches sel (snd pn) = false) (subtree root).

End Dom.

(** ** Python strings *)

Definition nl : string := String "010"%char EmptyString.
Definition dquote : string := String "034"%char EmptyString.
Definition bslash : string := String "092"%char EmptyString.

(** [s.split(sep)] for a one-character separator: the fields between the
    separators; the result is never empty. *)
Fixpoint split (sep : ascii) (s : string) : list string :=
  match s with
  | EmptyString => [EmptyString]
  | String c s' =>
      if Ascii.eqb c sep then EmptyString :: split sep s'
      else
        match split sep s' with
        | [] => [String c EmptyString]
        | field :: fields => String c field :: fields
        end
  end.

(** [l[-1]] on a list that is not empty. *)
Definition last_item (l : list string) : string := List.last l EmptyString.

(** [c * n] for a one-character string. *)
Fixpoint repeat_char (c : ascii) (n : nat) : string :=
  match n with
  | O => EmptyString
  | S n' => String c (repeat_char c n')
  end.

(** Truthiness of a value that is [None] or a [str]. *)
Definition truthy (v : option string) : bool :=
  match v with
  | None => false
  | Some s => negb (String.eqb s EmptyString)
  end.

(** ** [json.dump(obj, f, indent=2, ensure_ascii=False)] *)

Module Json.

Definition hex_digit (n : nat) : ascii :=
  match n with
  | 0 => "0" | 1 => "1" | 2 => "2" | 3 => "3" | 4 => "4" | 5 => "5"
  | 6 => "6" | 7 => "7" | 8 => "8" | 9 => "9" | 10 => "a" | 11 => "b"
  | 12 => "c" | 13 => "d" | 14 => "e" | _ => "f"
  end%char.

(** [ESCAPE_DCT]: backslash, double quote and the control characters below
    0x20 are escaped; every other character, so every byte of a character
    outside ASCII, is written as it is. *)
Definition escape_char (c : ascii) : string :=
  let n := nat_of_ascii c in
  if Nat.eqb n 92 then bslash +:+ bslash
  else if Nat.eqb n 34 then bslash +:+ dquote
  else if Nat.eqb n 8 then bslash +:+ "b"
  else if Nat.eqb n 12 then bslash +:+ "f"
  else if Nat.eqb n 10 then bslash +:+ "n"
  else if Nat.eqb n 13 then bslash +:+ "r"
  else if Nat.eqb n 9 then bslash +:+ "t"
  else if Nat.ltb n 32 then
    bslash +:+ "u00" +:+
    String (hex_digit (n / 16)) (String (hex_digit (n mod 16)) EmptyString)
  else String c EmptyString.

Fixpoint escape (s : string) : string :=
  match s with
  | EmptyString => EmptyString
  | String c s' => escape_char c +:+ escape s'
  end.

(** [py_encode_basestring]: the string literal of [s]. *)
Definition encode_string (s : string) : string :=
  dquote +:+ escape s +:+ dquote.

(** The encoding of a dict whose values are strings, with [indent=2]: one
    member per line, indented by two spaces, [": "] after a key, [","]
    between members, in insertion order. *)
Definition encode_member (kv : string * string) : string :=
  "  " +:+ encode_string (fst kv) +:+ ": " +:+ encode_string (snd kv).

Fixpoint join (sep : string) (l : list string) : string :=
  match l with
  | [] => EmptyString
  | [x] => x
  | x :: l' => x +:+ sep +:+ join sep l'
  end.

Definition dumps (members : list (string * string)) : string :=
  match members with
  | [] => "{}"
  | _ => "{" +:+ nl +:+ join ("," +:+ nl) (map encode_member members) +:+ nl +:+ "}"
  end.

(** *** Reading back what [dumps] writes *)

(** The value of a lowercase hexadecimal digit. *)
Definition hex_value (c : ascii) : option nat :=
  let n := nat_of_ascii c in
  if Nat.leb 48 n && Nat.leb n 57 then Some (n - 48)
  else if Nat.leb 97 n && Nat.leb n 102 then Some (n - 87)
  else None.

Definition prepend (c : ascii) (r : option (string * string)) : option (string * string) :=
  match r with
  | Some (s, rest) => Some (String c s, rest)
  | None => None
  end.

(** [decode_string s] reads a string literal whose opening quote has been
    consumed: the string it denotes and what follows the closing quote.  A
    raw control character, an unknown escape and a [\u] escape outside
    ASCII are rejected. *)
Fixpoint decode_string (s : string) : option (string * string) :=
  match s with
  | EmptyString => None
  | String c s' =>
      let n := nat_of_ascii c in
      if Nat.eqb n 34 then Some (EmptyString, s')
      else if Nat.eqb n 92 then
        match s' with
        | EmptyString => None
        | String e s'' =>
            let m := nat_of_ascii e in
            if Nat.eqb m 34 then prepend "034" (decode_string s'')
            else if Nat.eqb m 92 then prepend "092" (decode_string s'')
            else if Nat.eqb m 47 then prepend "/" (decode_string s'')
            else if Nat.eqb m 98 then prepend "008" (decode_string s'')
            else if Nat.eqb m 102 then prepend "012" (decode_string s'')
            else if Nat.eqb m 110 then prepend "010" (decode_string s'')
            else if Nat.eqb m 114 then prepend "013" (decode_string s'')
            else if Nat.eqb m 116 then prepend "009" (decode_string s'')
            else if Nat.eqb m 117 then
              match s'' with
              | String h1 (String h2 (String h3 (String h4 rest))) =>
                  match hex_value h1, hex_value h2, hex_value h3, hex_value h4 with
                  | Some 0, Some 0, Some a, Some b =>
                      if Nat.ltb (16 * a + b) 128
                      then prepend (ascii_of_nat (16 * a + b)) (decode_string rest)
                      else None
                  | _, _, _, _ => None
                  end
              | _ => None
              end
            else None
        end
      else if Nat.ltb n 32 then None
      else prepend c (decode_string s')
  end.

(** [expect prefix s]: what follows [prefix] in [s]. *)
Fixpoint expect (prefix s : string) : option string :=
  match prefix, s with
  | EmptyString, _ => Some s
  | String a prefix', String b s' =>
      if Ascii.eqb a b then expect prefix' s' else None
  | String _ _, EmptyString => None
  end.

(** The members of an object laid out as [dumps] does, up to the closing
    brace. *)
Fixpoint decode_members (fuel : nat) (s : string) : option (list (string * string)) :=
  match fuel with
  | O => None
  | S fuel' =>
      match expect ("  " +:+ dquote) s with
      | None => None
      | Some s1 =>
      match decode_string s1 with
      | None => None
      | Some (key, s2) =>
      match expect (": " +:+ dquote) s2 with
      | None => None
      | Some s3 =>
      match decode_string s3 with
      | None => None
      | Some (value, s4) =>
          match expect ("," +:+ nl) s4 with
          | Some s5 =>
              match decode_members fuel' s5 with
              | Some members => Some ((key, value) :: members)
              | None => None
              end
          | None =>
              match expect (nl +:+ "}") s4 with
              | Some EmptyString => Some [(key, value)]
              | _ => None
              end
          end
      end end end end
  end.

(** [json.loads] on the texts [dumps] writes: the members, in order. *)
Definition loads (s : string) : option (list (string * string)) :=
  if String.eqb s "{}" then Some []
  else
    match expect ("{" +:+ nl) s with
    | Some s' => decode_members (String.length s) s'
    | None => None
    end.

End Json.

(** ** The world and the environment *)

(** The calls made on the browser objects, in the order they are made. *)
Inductive Call : Type :=
| Launch
| NewContext (user_agent : string)
| NewPage
| Goto (url : string)
| WaitForSelector (selector : string)
| WaitForTimeout (ms : nat)
| Evaluate
| Close.

(** What the page shows: the URL it was sent to and its live document. *)
Record Page : Type := mkPage {
  page_url : string;
  page_root : Dom.Node
}.

Record World : Type := mkWorld {
  fs : gmap string string;      (* path -> content of the files on disk *)
  dirs : list string;           (* directories created by the script *)
  stdout : list string;         (* one entry per [print] call *)
  page : option Page;           (* [None] until the first navigation *)
  calls : list Call             (* the browser calls made so far *)
}.

(** The extracted [content] object of a documentation page. *)
Record Content : Type := mkContent {
  text : string;
  html : string;
  title : string
}.

Record Env : Type := mkEnv {
  (* the rendering engine *)
  innerText : Dom.Node -> string;
  innerHTML : Dom.Node -> string;
  documentTitle : Dom.Node -> string;
  (* [page.goto(url)]: the message of the exception it raises, if any, and
     the document the page holds once the navigation has settled *)
  goto_fault : string -> option string;
  document_of : string -> Dom.Node;
  (* [wait_for_selector], [wait_for_timeout], [evaluate] on the page while
     it shows the given URL: the exception raised, if any *)
  selector_fault : string -> option string;
  timeout_fault : string -> option string;
  evaluate_fault : string -> option string;
  (* [open(path, 'w')]: the exception raised, if any *)
  open_fault : string -> option string;
  (* writing [data] to the opened [path] and closing it: if an exception is
     raised, its message and how many bytes had reached the file *)
  write_fault : string -> string -> option (nat * string)
}.

(** ** Computations: state and exceptions *)

Inductive result (A : Type) : Type :=
| Ok (a : A)
| Raised (msg : string).
Arguments Ok {A} a.
Arguments Raised {A} msg.

Definition M (A : Type) : Type := World -> result A * World.

Definition ret {A : Type} (a : A) : M A := fun w => (Ok a, w).

Definition raise {A : Type} (msg : string) : M A := fun w => (Raised msg, w).

Definition bind {A B : Type} (c : M A) (k : A -> M B) : M B :=
  fun w =>
    match c w with
    | (Ok a, w') => k a w'
    | (Raised msg, w') => (Raised msg, w')
    end.

(** [try: c except Exception as e: handler(e)] *)
Definition try_except {A : Type} (c : M A) (handler : string -> M A) : M A :=
  fun w =>
    match c w with
    | (Ok a, w') => (Ok a, w')
    | (Raised msg, w') => handler msg w'
    end.

Declare Scope comp_scope.
Delimit Scope comp_scope with comp.
Bind Scope comp_scope with M.
Notation "x <- c ;; k" := (bind c (fun x => k))
  (at level 100, c at next level, right associativity) : comp_scope.
Notation "c ;; k" := (bind c (fun _ => k))
  (at level 100, right associativity) : comp_scope.
Local Open Scope comp_scope.

Definition modify (f : World -> World) : M unit := fun w => (Ok tt, f w).

Definition get_page : M (option Page) := fun w => (Ok (page w), w).

(** Raise the exception the environment announces, if any. *)
Definition check (fault : option string) : M unit :=
  match fault with
  | Some msg => raise msg
  | None => ret tt
  end.

(** *** Primitive effects *)

Definition print (line : string) : M unit :=
  modify (fun w => mkWorld (fs w) (dirs w) (stdout w ++ [line]) (page w) (calls w)).

Definition record (c : Call) : M unit :=
  modify (fun w => mkWorld (fs w) (dirs w) (stdout w) (page w) (calls w ++ [c])).

Definition set_page (p : Page) : M unit :=
  modify (fun w => mkWorld (fs w) (dirs w) (stdout w) (Some p) (calls w)).

Definition set_file (path data : string) : M unit :=
  modify (fun w => mkWorld (<[path := data]> (fs w)) (dirs w) (stdout w) (page w) (calls w)).

(** [os.makedirs(path, exist_ok=True)] *)
Definition makedirs (path : string) : M unit :=
  modify (fun w =>
    mkWorld (fs w) (if bool_decide (path ∈ dirs w) then dirs w else dirs w ++ [path])
            (stdout w) (page w) (calls w)).

(** The current URL of the page ([about:blank] before any navigation). *)
Definition current_url : M string :=
  p <- get_page ;;
  ret (match p with Some pg => page_url pg | None => "about:blank" end).

(** [await page.goto(url, wait_until="networkidle", timeout=30000)] *)
Definition page_goto (env : Env) (url : string) : M unit :=
  record (Goto url) ;;
  check (goto_fault env url) ;;
  set_page (mkPage url (document_of env url)).

(** [await page.wait_for_selector(selector, timeout=10000)] *)
Definition page_wait_for_selector (env : Env) (selector : string) : M unit :=
  record (WaitForSelector selector) ;;
  url <- current_url ;;
  check (selector_fault env url).

(** [await page.wait_for_timeout(ms)] *)
Definition page_wait_for_timeout (env : Env) (ms : nat) : M unit :=
  record (WaitForTimeout ms) ;;
  url <- current_url ;;
  check (timeout_fault env url).

(** [with open(path, 'w', encoding='utf-8') as f: <write data to f>]:
    opening creates the file or truncates it; a failure while writing or
    closing leaves the bytes written so far. *)
Definition write_file (env : Env) (path data : string) : M unit :=
  check (open_fault env path) ;;
  set_file path EmptyString ;;
  match write_fault env path data with
  | Some (n, msg) => set_file path (substring 0 n data) ;; raise msg
  | None => set_file path data
  end.

(** ** The script *)

Definition DOCS_URLS : list string :=
  [ "https://hyperping.com/docs/api/overview";
    "https://hyperping.com/docs/api/monitors";
    "https://hyperping.com/docs/api/statuspages";
    "https://hyperping.com/docs/api/maintenance";
    "https://hyperping.com/docs/api/incidents";
    "https://hyperping.com/docs/api/outages";
    "https://hyperping.com/docs/api/healthchecks";
    "https://hyperping.com/docs/api/reports" ].

Definition NOTION_URL : string :=
  "https://hyperping.notion.site/Hyperping-API-documentation-a0dc48fb818e4542a8f7fb4163ede2c3".

Definition CONTENT_SELECTOR : string :=
  "main, article, .documentation, .notion-page-content".

Definition USER_AGENT : string :=
  "Mozilla/5.0 (X11; Linux x86_64) AppleWebKit/537.36".

(** The message of the [TypeError] of a property access on [null]. *)
Definition NULL_ERROR : string :=
  "TypeError: Cannot read properties of null".

(** *** The in-page extraction script of [scrape_page] *)

(** [const main = document.querySelector('main') || ... || document.body] *)
Definition select_container (root : Dom.Node) : option (Dom.Path * Dom.Node) :=
  Dom.or_else (Dom.document_querySelector [Dom.TypeSel "main"] root)
 (Dom.or_else (Dom.document_querySelector [Dom.TypeSel "article"] root)
 (Dom.or_else (Dom.document_querySelector [Dom.ClassSel "documentation"] root)
 (Dom.or_else (Dom.document_querySelector [Dom.ClassSel "notion-page-content"] root)
              (Dom.document_body root)))).

Definition SCRIPT_STYLE : Dom.Selector := [Dom.TypeSel "script"; Dom.TypeSel "style"].

(** The arrow function passed to [page.evaluate], run on the live document
    [root]: the document it leaves and the object it returns, or the
    message of the error it throws. *)
Definition extract (env : Env) (root : Dom.Node) : result (Dom.Node * Content) :=
  match select_container root with
  | None => Raised NULL_ERROR
  | Some (p, _) =>
      let root' := Dom.update_at p (Dom.remove_matching SCRIPT_STYLE) root in
      match Dom.node_at p root' with
      | None => Raised NULL_ERROR
      | Some main =>
          Ok (root', mkContent (innerText env main) (innerHTML env main)
                               (documentTitle env root'))
      end
  end.

(** [content = await page.evaluate(<the arrow function>)] *)
Definition page_evaluate_extract (env : Env) : M Content :=
  record Evaluate ;;
  p <- get_page ;;
  match p with
  | None => raise NULL_ERROR
  | Some pg =>
      check (evaluate_fault env (page_url pg)) ;;
      match extract env (page_root pg) with
      | Raised msg => raise msg
      | Ok (root', content) =>
          set_page (mkPage (page_url pg) root') ;;
          ret content
      end
  end.

(** [await page.evaluate("document.body.innerText")] *)
Definition page_evaluate_body_text (env : Env) : M string :=
  record Evaluate ;;
  p <- get_page ;;
  match p with
  | None => raise NULL_ERROR
  | Some pg =>
      check (evaluate_fault env (page_url pg)) ;;
      match Dom.document_body (page_root pg) with
      | None => raise NULL_ERROR
      | Some (_, body) => ret (innerText env body)
      end
  end.

(** The dict given to [json.dump] in [scrape_page], as written to the file. *)
Definition page_json (url : string) (content : Content) : string :=
  Json.dumps [ ("url", url); ("title", title content);
               ("text", text content); ("html", html content) ].
Arguments page_json : simpl never.

(** *** [scrape_page(page, url, output_file)]: [Some text] or [None] *)
Definition scrape_page (env : Env) (url output_file : string) : M (option string) :=
  print ("Scraping: " +:+ url) ;;
  try_except
    (page_goto env url ;;
     page_wait_for_selector env CONTENT_SELECTOR ;;
     content <- page_evaluate_extract env ;;
     write_file env output_file (page_json url content) ;;
     print ("✅ Saved to " +:+ output_file) ;;
     ret (Some (text content)))
    (fun e =>
       print ("❌ Error scraping " +:+ url +:+ ": " +:+ e) ;;
       ret None).

(** *** [main()] *)

Definition page_name_of (url : string) : string := last_item (split "/" url).

Definition output_file_of (url : string) : string :=
  "docs_scraped/" +:+ page_name_of url +:+ ".json".

Definition NOTION_FILE : string := "docs_scraped/notion_api_docs.txt".

(** The body of the [for url in DOCS_URLS] loop. *)
Definition scrape_one (env : Env) (url : string) (results : gmap string string)
  : M (gmap string string) :=
  let page_name := page_name_of url in
  let output_file := output_file_of url in
  content <- scrape_page env url output_file ;;
  ret (if truthy content
       then match content with
            | Some t => <[page_name := t]> results
            | None => results
            end
       else results).

Fixpoint scrape_all (env : Env) (urls : list string) (results : gmap string string)
  : M (gmap string string) :=
  match urls with
  | [] => ret results
  | url :: rest =>
      results' <- scrape_one env url results ;;
      scrape_all env rest results'
  end.

Definition RULE : string := repeat_char "=" 60.

Definition summary_line (n : nat) : string :=
  "Scraped " +:+ pretty n +:+ " pages successfully".

(** The Notion page, scraped after the loop, outside any [try]. *)
Definition scrape_notion (env : Env) : M unit :=
  print (nl +:+ "Scraping Notion page...") ;;
  page_goto env NOTION_URL ;;
  page_wait_for_timeout env 3000 ;;
  notion_content <- page_evaluate_body_text env ;;
  write_file env NOTION_FILE notion_content ;;
  print "✅ Saved Notion docs to docs_scraped/notion_api_docs.txt".

Definition print_summary (results : gmap string string) : M unit :=
  print (nl +:+ RULE) ;;
  print (summary_line (size results)) ;;
  print "Output directory: ./docs_scraped/" ;;
  print RULE.

Definition main (env : Env) : M unit :=
  record Launch ;;
  record (NewContext USER_AGENT) ;;
  record NewPage ;;
  results <- scrape_all env DOCS_URLS ∅ ;;
  scrape_notion env ;;
  record Close ;;
  print_summary results.

(** *** The [__main__] block and the exit status of the process *)

Definition script (env : Env) : M unit :=
  makedirs "docs_scraped" ;;
  main env.

(** The interpreter exits with 0 when the script ends, with 1 when an
    exception is not caught. *)
Definition exit_code (env : Env) (w : World) : nat :=
  match fst (script env w) with
  | Ok _ => 0
  | Raised _ => 1
  end.

Definition final_world (env : Env) (w : World) : World := snd (script env w).

(** ** What one call of [scrape_page] does, read off the environment *)

(** How the processing of one URL ends: at the first step that raises, or
    with the file saved.  [root'] is the document the extraction leaves. *)
Inductive Outcome : Type :=
| NavigationFailed (msg : string)
| SelectorFailed (msg : string)
| ExtractionFailed (msg : string)
| OpenFailed (root' : Dom.Node) (content : Content) (msg : string)
| WriteFailed (root' : Dom.Node) (content : Content) (n : nat) (msg : string)
| Saved (root' : Dom.Node) (content : Content).

Definition outcome (env : Env) (url output_file : string) : Outcome :=
  match goto_fault env url with
  | Some msg => NavigationFailed msg
  | None =>
  match selector_fault env url with
  | Some msg => SelectorFailed msg
  | None =>
  match evaluate_fault env url with
  | Some msg => ExtractionFailed msg
  | None =>
  match extract env (document_of env url) with
  | Raised msg => ExtractionFailed msg
  | Ok (root', content) =>
  match open_fault env output_file with
  | Some msg => OpenFailed root' content msg
  | None =>
  match write_fault env output_file (page_json url content) with
  | Some (n, msg) => WriteFailed root' content n msg
  | None => Saved root' content
  end end end end end end.

(** The message of the exception that ended the processing, if any. *)
Definition failure (o : Outcome) : option string :=
  match o with
  | NavigationFailed msg | SelectorFailed msg | ExtractionFailed msg
  | OpenFailed _ _ msg | WriteFailed _ _ _ msg => Some msg
  | Saved _ _ => None
  end.

(** The content the extraction returned, if the processing got that far. *)
Definition extracted (o : Outcome) : option Content :=
  match o with
  | OpenFailed _ c _ | WriteFailed _ c _ _ | Saved _ c => Some c
  | _ => None
  end.

Definition returned (o : Outcome) : option string :=
  match o with
  | Saved _ c => Some (text c)
  | _ => None
  end.

Definition calls_of (url : string) (o : Outcome) : list Call :=
  match o with
  | NavigationFailed _ => [Goto url]
  | SelectorFailed _ => [Goto url; WaitForSelector CONTENT_SELECTOR]
  | _ => [Goto url; WaitForSelector CONTENT_SELECTOR; Evaluate]
  end.

Definition lines_of (url output_file : string) (o : Outcome) : list string :=
  ("Scraping: " +:+ url) ::
  match failure o with
  | Some msg => ["❌ Error scraping " +:+ url +:+ ": " +:+ msg]
  | None => ["✅ Saved to " +:+ output_file]
  end.

Definition page_after (env : Env) (url : string) (o : Outcome) (old : option Page)
  : option Page :=
  match o with
  | NavigationFailed _ => old
  | SelectorFailed _ | ExtractionFailed _ => Some (mkPage url (document_of env url))
  | OpenFailed root' _ _ | WriteFailed root' _ _ _ | Saved root' _ =>
      Some (mkPage url root')
  end.

Definition fs_after (url output_file : string) (o : Outcome) (old : gmap string string)
  : gmap string string :=
  match o with
  | WriteFailed _ c n _ => <[output_file := substring 0 n (page_json url c)]> old
  | Saved _ c => <[output_file := page_json url c]> old
  | _ => old
  end.

Definition world_after (env : Env) (url output_file : string) (w : World) : World :=
  let o := outcome env url output_file in
  mkWorld (fs_after url output_file o (fs w)) (dirs w)
          (stdout w ++ lines_of url output_file o)
          (page_after env url o (page w))
          (calls w ++ calls_of url o).

(** ** The loop over the fixed list *)

(** The text recorded in [results] for a URL: the returned text when it is
    truthy. *)
Definition recorded (o : Outcome) : option string :=
  match returned o with
  | Some t => if truthy (Some t) then Some t else None
  | None => None
  end.

Definition results_after (env : Env) (url : string) (results : gmap string string)
  : gmap string string :=
  match recorded (outcome env url (output_file_of url)) with
  | Some t => <[page_name_of url := t]> results
  | None => results
  end.

Fixpoint loop_results (env : Env) (urls : list string) (results : gmap string string)
  : gmap string string :=
  match urls with
  | [] => results
  | url :: rest => loop_results env rest (results_after env url results)
  end.

Fixpoint loop_world (env : Env) (urls : list string) (w : World) : World :=
  match urls with
  | [] => w
  | url :: rest => loop_world env rest (world_after env url (output_file_of url) w)
  end.

(** What is at [path] after one URL was processed with output file [path]. *)
Definition file_after (url output_file : string) (o : Outcome) (old : option string)
  : option string :=
  match o with
  | WriteFailed _ c n _ => Some (substring 0 n (page_json url c))
  | Saved _ c => Some (page_json url c)
  | _ => old
  end.

(** Whether a result is recorded for [url]. *)
Definition is_recorded (env : Env) (url : string) : bool :=
  bool_decide (is_Some (recorded (outcome env url (output_file_of url)))).

(** ** The Notion page and the whole run *)

Inductive NotionOutcome : Type :=
| NotionNavigationFailed (msg : string)
| NotionWaitFailed (msg : string)
| NotionExtractionFailed (msg : string)
| NotionOpenFailed (body_text : string) (msg : string)
| NotionWriteFailed (body_text : string) (n : nat) (msg : string)
| NotionSaved (body_text : string).

Definition notion_outcome (env : Env) : NotionOutcome :=
  match goto_fault env NOTION_URL with
  | Some msg => NotionNavigationFailed msg
  | None =>
  match timeout_fault env NOTION_URL with
  | Some msg => NotionWaitFailed msg
  | None =>
  match evaluate_fault env NOTION_URL with
  | Some msg => NotionExtractionFailed msg
  | None =>
  match Dom.document_body (document_of env NOTION_URL) with
  | None => NotionExtractionFailed NULL_ERROR
  | Some (_, body) =>
  match open_fault env NOTION_FILE with
  | Some msg => NotionOpenFailed (innerText env body) msg
  | None =>
  match write_fault env NOTION_FILE (innerText env body) with
  | Some (n, msg) => NotionWriteFailed (innerText env body) n msg
  | None => NotionSaved (innerText env body)
  end end end end end end.

Definition notion_failure (o : NotionOutcome) : option string :=
  match o with
  | NotionNavigationFailed msg | NotionWaitFailed msg | NotionExtractionFailed msg
  | NotionOpenFailed _ msg | NotionWriteFailed _ _ msg => Some msg
  | NotionSaved _ => None
  end.

Definition notion_calls (o : NotionOutcome) : list Call :=
  match o with
  | NotionNavigationFailed _ => [Goto NOTION_URL]
  | NotionWaitFailed _ => [Goto NOTION_URL; WaitForTimeout 3000]
  | _ => [Goto NOTION_URL; WaitForTimeout 3000; Evaluate]
  end.

Definition notion_lines (o : NotionOutcome) : list string :=
  (nl +:+ "Scraping Notion page...") ::
  match o with
  | NotionSaved _ => ["✅ Saved Notion docs to docs_scraped/notion_api_docs.txt"]
  | _ => []
  end.

Definition notion_file_after (o : NotionOutcome) (old : option string) : option string :=
  match o with
  | NotionWriteFailed t n _ => Some (substring 0 n t)
  | NotionSaved t => Some t
  | _ => old
  end.

Definition notion_fs_after (o : NotionOutcome) (old : gmap string string)
  : gmap string string :=
  match o with
  | NotionWriteFailed t n _ => <[NOTION_FILE := substring 0 n t]> old
  | NotionSaved t => <[NOTION_FILE := t]> old
  | _ => old
  end.

Definition notion_page_after (env : Env) (o : NotionOutcome) (old : option Page)
  : option Page :=
  match o with
  | NotionNavigationFailed _ => old
  | _ => Some (mkPage NOTION_URL (document_of env NOTION_URL))
  end.

Definition notion_world_after (env : Env) (w : World) : World :=
  let o := notion_outcome env in
  mkWorld (notion_fs_after o (fs w)) (dirs w) (stdout w ++ notion_lines o)
          (notion_page_after env o (page w)) (calls w ++ notion_calls o).

(** The world when the loop starts. *)
Definition prelude (w : World) : World :=
  mkWorld (fs w)
          (if bool_decide ("docs_scraped" ∈ dirs w) then dirs w
           else dirs w ++ ["docs_scraped"])
          (stdout w) (page w)
          (calls w ++ [Launch; NewContext USER_AGENT; NewPage]).

Definition summary_lines (results : gmap string string) : list string :=
  [nl +:+ RULE; summary_line (size results);
   "Output directory: ./docs_scraped/"; RULE].

(** The world after the loop and the Notion step. *)
Definition before_close (env : Env) (w : World) : World :=
  notion_world_after env (loop_world env DOCS_URLS (prelude w)).

(** ** Classifying failures and printed lines *)

(** The steps of the processing of one URL that can raise. *)
Inductive Step : Type :=
| Navigation
| SelectorWait
| SettleWait
| Extraction
| FileOpen
| FileWrite.

Definition failed_step (o : Outcome) : option Step :=
  match o with
  | NavigationFailed _ => Some Navigation
  | SelectorFailed _ => Some SelectorWait
  | ExtractionFailed _ => Some Extraction
  | OpenFailed _ _ _ => Some FileOpen
  | WriteFailed _ _ _ _ => Some FileWrite
  | Saved _ _ => None
  end.

Definition notion_failed_step (o : NotionOutcome) : option Step :=
  match o with
  | NotionNavigationFailed _ => Some Navigation
  | NotionWaitFailed _ => Some SettleWait
  | NotionExtractionFailed _ => Some Extraction
  | NotionOpenFailed _ _ => Some FileOpen
  | NotionWriteFailed _ _ _ => Some FileWrite
  | NotionSaved _ => None
  end.

(** [s.startswith(prefix)] *)
Fixpoint starts_with (prefix s : string) : bool :=
  match prefix, s with
  | EmptyString, _ => true
  | String a prefix', String b s' => Ascii.eqb a b && starts_with prefix' s'
  | String _ _, EmptyString => false
  end.

Definition is_error_line (line : string) : bool :=
  starts_with "❌ Error scraping " line.

Definition error_line (url msg : string) : string :=
  "❌ Error scraping " +:+ url +:+ ": " +:+ msg.

(** The lines of the summary block start like no other line of the run. *)
Definition is_summary_line (line : string) : bool :=
  starts_with "Scraped " line || starts_with "Output directory" line
  || starts_with "=" line || starts_with (nl +:+ "=") line.

(** ** Further notions for the properties of the code *)

(** [c in s] for a one-character string [c]. *)
Fixpoint contains_char (c : ascii) (s : string) : bool :=
  match s with
  | EmptyString => false
  | String a s' => Ascii.eqb a c || contains_char c s'
  end.

(** [sep.join(l)] *)
Fixpoint str_join (sep : string) (l : list string) : string :=
  match l with
  | [] => EmptyString
  | [x] => x
  | x :: l' => x +:+ sep +:+ str_join sep l'
  end.

(** The number of characters of [s] that satisfy [f]. *)
Fixpoint count_if (f : ascii -> bool) (s : string) : nat :=
  match s with
  | EmptyString => 0
  | String a s' => (if f a then 1 else 0) + count_if f s'
  end.

Definition is_goto (c : Call) : bool :=
  match c with
  | Goto _ => true
  | _ => false
  end.

Definition is_scraping_line (line : string) : bool :=
  starts_with "Scraping: " line.

Definition is_saved_line (line : string) : bool :=
  starts_with "✅ Saved to " line.

(** Whether [scrape_page] returns a text for [url]. *)
Definition is_saved (env : Env) (url : string) : bool :=
  bool_decide (is_Some (returned (outcome env url (output_file_of url)))).

(** The selector list given to [wait_for_selector], parsed. *)
Definition CONTENT_SELECTORS : Dom.Selector :=
  [Dom.TypeSel "main"; Dom.TypeSel "article"; Dom.ClassSel "documentation";
   Dom.ClassSel "notion-page-content"].

(** Two positions diverge when neither is on the way to the other. *)
Fixpoint diverge (p q : Dom.Path) : bool :=
  match p, q with
  | i :: p', j :: q' => if Nat.eqb i j then diverge p' q' else true
  | _, _ => false
  end.

(** ** The host: the steps around the page visits that can raise too *)

(** The definitions above take the output directory as created, the browser
    session as acquired and closed without error, and standard output as
    accepting every line.  In the source none of these steps is protected:
    [os.makedirs], [async_playwright()], [launch], [new_context],
    [new_page] and [browser.close()] are outside any [try]; the first
    [print] of [scrape_page] is outside its [try], the second inside it,
    the third inside its handler.  A [Host] tells which of them raise. *)
Record Host : Type := mkHost {
  (* [os.makedirs] raises for another reason than a regular file in the way *)
  makedirs_fault : option string;
  (* [async with async_playwright() as p] cannot start *)
  start_fault : option string;
  launch_fault : option string;
  context_fault : option string;
  new_page_fault : option string;
  close_fault : option string;
  (* [print(line)] raises, as when standard output cannot encode the line *)
  print_fault : string -> option string
}.

Definition FILE_EXISTS : string := "[Errno 17] File exists: 'docs_scraped'".

(** [os.makedirs(path, exist_ok=True)]: a regular file at [path] raises
    [FileExistsError]; an existing directory is accepted. *)
Definition host_makedirs (host : Host) (path : string) : M unit :=
  fun w =>
    match fs w !! path with
    | Some _ => (Raised FILE_EXISTS, w)
    | None => (check (makedirs_fault host) ;; makedirs path) w
    end.

(** [print(line)]: nothing is printed when it raises. *)
Definition host_print (host : Host) (line : string) : M unit :=
  check (print_fault host line) ;; print line.

Definition host_scrape_page (host : Host) (env : Env) (url output_file : string)
  : M (option string) :=
  host_print host ("Scraping: " +:+ url) ;;
  try_except
    (page_goto env url ;;
     page_wait_for_selector env CONTENT_SELECTOR ;;
     content <- page_evaluate_extract env ;;
     write_file env output_file (page_json url content) ;;
     host_print host ("✅ Saved to " +:+ output_file) ;;
     ret (Some (text content)))
    (fun e =>
       host_print host ("❌ Error scraping " +:+ url +:+ ": " +:+ e) ;;
       ret None).

Definition host_scrape_one (host : Host) (env : Env) (url : string)
    (results : gmap string string) : M (gmap string string) :=
  let page_name := page_name_of url in
  let output_file := output_file_of url in
  content <- host_scrape_page host env url output_file ;;
  ret (if truthy content
       then match content with
            | Some t => <[page_name := t]> results
            | None => results
            end
       else results).

Fixpoint host_scrape_all (host : Host) (env : Env) (urls : list string)
    (results : gmap string string) : M (gmap string string) :=
  match urls with
  | [] => ret results
  | url :: rest =>
      results' <- host_scrape_one host env url results ;;
      host_scrape_all host env rest results'
  end.

Definition host_scrape_notion (host : Host) (env : Env) : M unit :=
  host_print host (nl +:+ "Scraping Notion page...") ;;
  page_goto env NOTION_URL ;;
  page_wait_for_timeout env 3000 ;;
  notion_content <- page_evaluate_body_text env ;;
  write_file env NOTION_FILE notion_content ;;
  host_print host "✅ Saved Notion docs to docs_scraped/notion_api_docs.txt".

Definition host_print_summary (host : Host) (results : gmap string string) : M unit :=
  host_print host (nl +:+ RULE) ;;
  host_print host (summary_line (size results)) ;;
  host_print host "Output directory: ./docs_scraped/" ;;
  host_print host RULE.

Definition host_main (host : Host) (env : Env) : M unit :=
  check (start_fault host) ;;
  record Launch ;; check (launch_fault host) ;;
  record (NewContext USER_AGENT) ;; check (context_fault host) ;;
  record NewPage ;; check (new_page_fault host) ;;
  results <- host_scrape_all host env DOCS_URLS ∅ ;;
  host_scrape_notion host env ;;
  record Close ;; check (close_fault host) ;;
  host_print_summary host results.

Definition host_script (host : Host) (env : Env) : M unit :=
  host_makedirs host "docs_scraped" ;;
  host_main host env.

Definition host_exit_code (host : Host) (env : Env) (w : World) : nat :=
  match fst (host_script host env w) with
  | Ok _ => 0
  | Raised _ => 1
  end.

Definition host_final_world (host : Host) (env : Env) (w : World) : World :=
  snd (host_script host env w).

(** The world once [browser.close()] has been called. *)
Definition closed_world (env : Env) (w : World) : World :=
  mkWorld (fs (before_close env w)) (dirs (before_close env w))
          (stdout (before_close env w)) (page (before_close env w))
          (calls (before_close env w) ++ [Close]).

(** Standard output accepts every line. *)
Definition prints_ok (host : Host) : Prop :=
  forall line, print_fault host line = None.

(** The directory can be created and the browser session is acquired. *)
Definition setup_ok (host : Host) (w : World) : Prop :=
  fs w !! "docs_scraped" = None /\
  makedirs_fault host = None /\
  start_fault host = None /\
  launch_fault host = None /\
  context_fault host = None /\
  new_page_fault host = None.

(** Some step before the first page visit raises. *)
Definition setup_fails (host : Host) (w : World) : Prop :=
  is_Some (fs w !! "docs_scraped") \/
  is_Some (makedirs_fault host) \/
  is_Some (start_fault host) \/
  is_Some (launch_fault host) \/
  is_Some (context_fault host) \/
  is_Some (new_page_fault host).

(** No step of the processing of [url] raises. *)
Definition no_step_raised (env : Env) (url : string) : bool :=
  bool_decide (failure (outcome env url (output_file_of url)) = None).

(** A byte below 0x20. *)
Definition below_space (c : ascii) : bool := Nat.ltb (nat_of_ascii c) 32.

(** The byte LF. *)
Definition is_line_feed (c : ascii) : bool := Ascii.eqb c "010".

(** ** Sample environments *)

Module Sample.

(** A rendering engine for unstyled documents: the text is the text nodes
    outside scripts and styles, the markup is tags around the children. *)
Fixpoint concat_map (f : Dom.Node -> string) (l : list Dom.Node) : string :=
  match l with
  | [] => EmptyString
  | c :: l' => f c +:+ concat_map f l'
  end.

Fixpoint visible_text (n : Dom.Node) : string :=
  match n with
  | Dom.Text data => data
  | Dom.Element tag _ children =>
      if String.eqb tag "script" || String.eqb tag "style" then EmptyString
      else concat_map visible_text children
  end.

Fixpoint outerHTML (n : Dom.Node) : string :=
  match n with
  | Dom.Text data => data
  | Dom.Element tag _ children =>
      "<" +:+ tag +:+ ">" +:+ concat_map outerHTML children +:+ "</" +:+ tag +:+ ">"
  end.

Definition markup (n : Dom.Node) : string :=
  concat_map outerHTML (Dom.children_of n).

(** A page whose [main] holds a script and some text. *)
Definition main_with_script : Dom.Node :=
  Dom.Element "main" []
    [Dom.Element "script" [] [Dom.Text "track()"]; Dom.Text "Monitors API"].

Definition doc : Dom.Node :=
  Dom.Element "html" []
    [Dom.Element "head" [] []; Dom.Element "body" [] [main_with_script]].

(** The same page once the script was removed from [main]. *)
Definition doc_stripped : Dom.Node :=
  Dom.Element "html" []
    [Dom.Element "head" [] [];
     Dom.Element "body" [] [Dom.Element "main" [] [Dom.Text "Monitors API"]]].

(** A page whose [main] is empty. *)
Definition doc_empty : Dom.Node :=
  Dom.Element "html" []
    [Dom.Element "head" [] []; Dom.Element "body" [] [Dom.Element "main" [] []]].

Definition no_fault : string -> option string := fun _ => None.

Definition fault_at (key msg : string) : string -> option string :=
  fun k => if String.eqb k key then Some msg else None.

Definition no_write_fault : string -> string -> option (nat * string) :=
  fun _ _ => None.

Definition write_fault_at (path : string) (n : nat) (msg : string)
  : string -> string -> option (nat * string) :=
  fun p _ => if String.eqb p path then Some (n, msg) else None.

Definition env_with (document : string -> Dom.Node)
    (goto_f open_f : string -> option string)
    (write_f : string -> string -> option (nat * string)) : Env :=
  mkEnv visible_text markup (fun _ => "Hyperping API")
        goto_f document no_fault no_fault no_fault open_f write_f.

(** Every call succeeds and every page is [doc]. *)
Definition all_ok : Env := env_with (fun _ => doc) no_fault no_fault no_write_fault.

Definition empty_world : World := mkWorld ∅ [] [] None [].

(** The page shows [doc], loaded from the monitors URL. *)
Definition world_on_doc : World :=
  mkWorld ∅ [] [] (Some (mkPage "https://hyperping.com/docs/api/monitors" doc)) [].

Definition OVERVIEW : string := "https://hyperping.com/docs/api/overview".
Definition MONITORS : string := "https://hyperping.com/docs/api/monitors".
Definition STATUSPAGES : string := "https://hyperping.com/docs/api/statuspages".

(** The disk fills up while [overview.json] is written: one byte gets out. *)
Definition disk_full_on_overview : Env :=
  env_with (fun _ => doc) no_fault no_fault
    (write_fault_at "docs_scraped/overview.json" 1 "No space left on device").

(** The disk fills up while the Notion file is written: five bytes get
    out. *)
Definition disk_full_on_notion : Env :=
  env_with (fun _ => doc) no_fault no_fault
    (write_fault_at "docs_scraped/notion_api_docs.txt" 5 "No space left on device").

(** The navigation to the Notion page times out. *)
Definition notion_times_out : Env :=
  env_with (fun _ => doc) (fault_at NOTION_URL "Timeout 30000ms exceeded.")
    no_fault no_write_fault.

(** The overview page renders with an empty [main]. *)
Definition overview_empty : Env :=
  env_with (fun url => if String.eqb url OVERVIEW then doc_empty else doc)
    no_fault no_fault no_write_fault.

(** Three mishaps in one run: the overview page renders with an empty
    [main]; [monitors.json] cannot be opened; the navigation to the
    statuspages page times out, and a file of an earlier run is still at
    its output path. *)
Definition mixed : Env :=
  env_with (fun url => if String.eqb url OVERVIEW then doc_empty else doc)
    (fault_at STATUSPAGES "Timeout 30000ms exceeded.")
    (fault_at "docs_scraped/monitors.json" "Permission denied")
    no_write_fault.

Definition stale_world : World :=
  mkWorld {[ "docs_scraped/statuspages.json" := "{}" ]} [] [] None [].

(** The navigation to the third fixed-list page times out. *)
Definition statuspages_times_out : Env :=
  env_with (fun _ => doc) (fault_at STATUSPAGES "Timeout 30000ms exceeded.")
    no_fault no_write_fault.

End Sample.

(** ** Sample hosts *)

Module SampleHost.

(** Everything around the page visits works. *)
Definition fine : Host :=
  mkHost None None None None None None (fun _ => None).

(** The browser executable is missing. *)
Definition no_browser : Host :=
  mkHost None None (Some "Executable doesn't exist") None None None (fun _ => None).

(** Standard output encodes ASCII only: a line with a byte outside ASCII,
    as the check mark and the cross, cannot be printed. *)
Fixpoint all_ascii (s : string) : bool :=
  match s with
  | EmptyString => true
  | String c s' => Nat.ltb (nat_of_ascii c) 128 && all_ascii s'
  end.

Definition ascii_stdout : Host :=
  mkHost None None None None None None
    (fun line => if all_ascii line then None
                 else Some "'ascii' codec can't encode character").

(** [docs_scraped] is a regular file. *)
Definition file_in_the_way : World :=
  mkWorld {[ "docs_scraped" := "x" ]} [] [] None [].

(** Closing [overview.json] raises after every byte has been written. *)
Definition late_write_fault : Env :=
  Sample.env_with (fun _ => Sample.doc) Sample.no_fault Sample.no_fault
    (Sample.write_fault_at "docs_scraped/overview.json" 1000 "Input/output error").

(** The content extracted from [Sample.doc]. *)
Definition doc_content : Content :=
  mkContent "Monitors API" "Monitors API" "Hyperping API".

End SampleHost.

(** ** Properties *)

(** Closes a goal between two worlds that differ in the bracketing of the
    lists and in overwritten files. *)
Ltac same_world :=
  rewrite <- ?app_assoc, ?insert_insert_eq; reflexivity.

(** *** The document tree *)

Module DomFacts.
Import Dom.

(** Induction on a tree, with the property known of every child. *)
Section NodeInduction.

Variable P : Node -> Prop.
Hypothesis text_case : forall data, P (Text data).
Hypothesis element_case :
  forall tag classes children, Forall P children -> P (Element tag classes children).

Fixpoint node_induction (n : Node) : P n :=
  match n with
  | Text data => text_case data
  | Element tag classes children =>
      element_case tag classes children
        ((fix all (l : list Node) : Forall P l :=
            match l with
            | [] => List.Forall_nil P
            | c :: l' => List.Forall_cons P c l' (node_induction c) (all l')
            end) children)
  end.

End NodeInduction.

(** A position listed by [walk] goes through a child and is listed there. *)
Lemma walk_elem (i : nat) (l : list Node) (p : Path) (c : Node) :
  (p, c) ∈ walk subtree i l ->
  exists j q x, p = (i + j) :: q /\ nth_error l j = Some x /\ (q, c) ∈ subtree x.
Proof.
  revert i. induction l as [|x l IH]; intros i Hin; cbn [walk] in Hin.
  - by apply elem_of_nil in Hin.
  - apply elem_of_app in Hin as [Hin|Hin].
    + apply list_elem_of_fmap in Hin as [[q c'] [Heq Hq]].
      cbn in Heq. injection Heq as -> ->.
      exists 0, q, x. by rewrite Nat.add_0_r.
    + apply IH in Hin as (j & q & y & -> & Hj & Hq).
      exists (S j), q, y. split; [|done].
      by replace (i + S j) with (S i + j) by lia.
Qed.

(** Every listed position leads to the node listed with it. *)
Lemma subtree_node_at (n : Node) (p : Path) (c : Node) :
  (p, c) ∈ subtree n -> node_at p n = Some c.
Proof.
  revert p. induction n as [data|tag classes children IH] using node_induction;
    intros p Hin; cbn [subtree] in Hin.
  - apply elem_of_cons in Hin as [Heq|Hin]; [by injection Heq as -> ->|].
    by apply elem_of_nil in Hin.
  - apply elem_of_cons in Hin as [Heq|Hin]; [by injection Heq as -> ->|].
    apply walk_elem in Hin as (j & q & x & -> & Hj & Hq).
    cbn [node_at children_of Nat.add]. rewrite Hj.
    rewrite Forall_forall in IH. apply IH; [|done].
    apply list_elem_of_In. by eapply nth_error_In.
Qed.

Lemma update_nth_lookup {A : Type} (i : nat) (f : A -> A) (l : list A) (x : A) :
  nth_error l i = Some x -> nth_error (update_nth i f l) i = Some (f x).
Proof.
  revert i. induction l as [|y l IH]; intros [|i] H; cbn in *; try done.
  - by injection H as ->.
  - by apply IH.
Qed.

(** Reading a position after an update there gives the updated node: the
    reference to the container and the document agree. *)
Lemma node_at_update_at (p : Path) (f : Node -> Node) (n c : Node) :
  node_at p n = Some c -> node_at p (update_at p f n) = Some (f c).
Proof.
  revert n. induction p as [|i p IH]; intros n H; cbn in *.
  - by injection H as ->.
  - destruct n as [data|tag classes children]; cbn in *.
    + by destruct i.
    + destruct (nth_error children i) as [x|] eqn:Hx; [|done].
      rewrite (update_nth_lookup _ _ _ _ Hx). by apply IH.
Qed.

Lemma first_body_lookup (i : nat) (l : list Node) (p : Path) (c : Node) :
  first_body i l = Some (p, c) ->
  exists j, p = [i + j] /\ nth_error l j = Some c /\
            matches [TypeSel "body"; TypeSel "frameset"] c = true.
Proof.
  revert i. induction l as [|x l IH]; intros i H; cbn [first_body] in H; [done|].
  destruct (matches _ x) eqn:Hm.
  - injection H as <- <-. exists 0. by rewrite Nat.add_0_r.
  - apply IH in H as (j & -> & Hj & Hc). exists (S j).
    split; [|done]. by replace (i + S j) with (S i + j) by lia.
Qed.

Lemma document_body_node_at (root : Node) (p : Path) (c : Node) :
  document_body root = Some (p, c) -> node_at p root = Some c.
Proof.
  unfold document_body. intros H.
  destruct root as [data|tag classes children]; [done|].
  destruct (String.eqb tag "html") eqn:Htag.
  - apply String.eqb_eq in Htag as ->.
    apply first_body_lookup in H as (j & -> & Hj & _).
    cbn. by rewrite Hj.
  - exfalso. revert H Htag. clear.
    repeat (match goal with
            | |- context [match ?s with EmptyString => _ | String _ _ => _ end] =>
                destruct s as [|[[] [] [] [] [] [] [] []] ?]
            end; try done).
Qed.

Lemma head_filter_first {A : Type} (f : A -> bool) (l : list A) (x : A) :
  head (List.filter f l) = Some x <-> first_match f l x.
Proof.
  split.
  - induction l as [|y l IH]; [done|]. cbn [List.filter].
    destruct (f y) eqn:Hy; cbn [head].
    + intros [= ->]. by exists [], l.
    + intros H. destruct (IH H) as (before & after & -> & Hx & Hb).
      exists (y :: before), after. split_and!; [done|done|].
      by constructor.
  - intros (before & after & -> & Hx & Hb).
    induction Hb as [|y before Hy Hb IH]; cbn [app List.filter].
    + by rewrite Hx.
    + by rewrite Hy.
Qed.

Lemma head_filter_none {A : Type} (f : A -> bool) (l : list A) :
  head (List.filter f l) = None <-> Forall (fun y => f y = false) l.
Proof.
  induction l as [|y l IH]; [done|]. cbn [List.filter].
  destruct (f y) eqn:Hy; cbn [head].
  - split; [done|]. intros H. apply Forall_cons in H as [H _]. congruence.
  - rewrite IH. split.
    + intros H. by constructor.
    + intros H. by apply Forall_cons in H as [_ H].
Qed.

Lemma querySelector_first (sel : Selector) (root : Node) (pc : Path * Node) :
  document_querySelector sel root = Some pc
  <-> first_match (fun pn => matches sel (snd pn)) (subtree root) pc.
Proof. apply head_filter_first. Qed.

Lemma querySelector_none (sel : Selector) (root : Node) :
  document_querySelector sel root = None
  <-> Forall (fun pn => matches sel (snd pn) = false) (subtree root).
Proof. apply head_filter_none. Qed.

Lemma querySelector_node_at (sel : Selector) (root : Node) (p : Path) (c : Node) :
  document_querySelector sel root = Some (p, c) -> node_at p root = Some c.
Proof.
  intros H. apply querySelector_first in H as (before & after & Heq & _ & _).
  apply subtree_node_at. rewrite Heq. apply elem_of_app. right. by left.
Qed.

(** Removing descendants keeps the element's own name and classes. *)
Lemma matches_remove_matching (sel sel' : Selector) (n : Node) :
  matches sel (remove_matching sel' n) = matches sel n.
Proof. by destruct n. Qed.

Lemma prune_elem (sel : Selector) (rm : Node -> Node) (l : list Node) (x : Node) :
  x ∈ prune sel rm l -> exists y, y ∈ l /\ matches sel y = false /\ x = rm y.
Proof.
  induction l as [|y l IH]; cbn [prune]; intros H.
  - by apply elem_of_nil in H.
  - destruct (matches sel y) eqn:Hy.
    + destruct (IH H) as (z & Hz & Hm & ->). exists z. split_and!; [by right|done..].
    + apply elem_of_cons in H as [->|H].
      * exists y. split_and!; [by left|done..].
      * destruct (IH H) as (z & Hz & Hm & ->). exists z. split_and!; [by right|done..].
Qed.

(** After the removal no descendant matches the selector. *)
Lemma remove_matching_clean (sel : Selector) (n : Node) :
  Forall (fun pn => matches sel (snd pn) = false) (descendants (remove_matching sel n)).
Proof.
  induction n as [data|tag classes children IH] using node_induction.
  - constructor.
  - cbn [remove_matching descendants subtree tl].
    apply Forall_forall. intros [p c] Hin.
    apply walk_elem in Hin as (j & q & x & _ & Hj & Hq). cbn [snd].
    apply nth_error_In, list_elem_of_In, prune_elem in Hj as (y & Hy & Hm & ->).
    rewrite Forall_forall in IH. specialize (IH y Hy).
    destruct (remove_matching sel y) as [data|t cs ch] eqn:Hrm.
    + cbn [subtree] in Hq. apply elem_of_cons in Hq as [[= -> ->]|Hq].
      * by rewrite <- Hrm, matches_remove_matching.
      * by apply elem_of_nil in Hq.
    + cbn [subtree] in Hq. apply elem_of_cons in Hq as [[= -> ->]|Hq].
      * by rewrite <- Hrm, matches_remove_matching.
      * rewrite Forall_forall in IH. by apply (IH (q, c)).
Qed.

Lemma querySelectorAll_after_remove (sel : Selector) (n : Node) :
  element_querySelectorAll sel (remove_matching sel n) = [].
Proof.
  unfold element_querySelectorAll.
  pose proof (remove_matching_clean sel n) as H.
  induction H as [|pn l Hpn _ IH]; [done|].
  cbn [List.filter]. by rewrite Hpn.
Qed.

End DomFacts.

Section ScrapePage.

Variable env : Env.

(** [scrape_page] never raises; its value and the world it leaves are those
    read off the environment. *)
Lemma scrape_page_run (url output_file : string) (w : World) :
  scrape_page env url output_file w =
    (Ok (returned (outcome env url output_file)), world_after env url output_file w).
Proof.
  unfold scrape_page, world_after, outcome, bind, try_except, print, modify,
    page_goto, page_wait_for_selector, page_evaluate_extract, write_file,
    current_url, get_page, record, set_page, set_file, check, ret, raise.
  destruct w as [f d out pg cs]; cbn.
  destruct (goto_fault env url) as [m|]; cbn; [same_world|].
  destruct (selector_fault env url) as [m|]; cbn; [same_world|].
  destruct (evaluate_fault env url) as [m|]; cbn; [same_world|].
  destruct (extract env (document_of env url)) as [[root' c]|m]; cbn;
    [|same_world].
  destruct (open_fault env output_file) as [m|]; cbn; [same_world|].
  destruct (write_fault env output_file (page_json url c)) as [[n m]|]; cbn;
    same_world.
Qed.

End ScrapePage.

(** *** The fixed list *)

Lemma output_files_distinct : NoDup (map output_file_of DOCS_URLS).
Proof. by apply (bool_decide_unpack _); vm_compute. Qed.

Lemma page_names_distinct : NoDup (map page_name_of DOCS_URLS).
Proof. by apply (bool_decide_unpack _); vm_compute. Qed.

Lemma notion_file_not_output : NOTION_FILE ∉ map output_file_of DOCS_URLS.
Proof. by apply (bool_decide_unpack _); vm_compute. Qed.

Lemma output_file_not_notion (url : string) :
  url ∈ DOCS_URLS -> output_file_of url ≠ NOTION_FILE.
Proof.
  intros Hin Heq. apply notion_file_not_output. rewrite <- Heq.
  apply list_elem_of_fmap. by exists url.
Qed.

Section Loop.

Variable env : Env.

Lemma scrape_one_run (url : string) (results : gmap string string) (w : World) :
  scrape_one env url results w =
    (Ok (results_after env url results), world_after env url (output_file_of url) w).
Proof.
  unfold scrape_one, bind. rewrite scrape_page_run. unfold ret, results_after, recorded.
  destruct (returned _) as [t|]; [|done].
  by destruct (truthy (Some t)).
Qed.

(** The loop never raises. *)
Lemma scrape_all_run (urls : list string) (results : gmap string string) (w : World) :
  scrape_all env urls results w =
    (Ok (loop_results env urls results), loop_world env urls w).
Proof.
  revert results w. induction urls as [|url rest IH]; intros results w; [done|].
  cbn [scrape_all loop_results loop_world]. unfold bind.
  by rewrite scrape_one_run, IH.
Qed.

Lemma loop_dirs (urls : list string) (w : World) :
  dirs (loop_world env urls w) = dirs w.
Proof.
  revert w. induction urls as [|u r IH]; intros w; [done|].
  cbn [loop_world]. by rewrite IH.
Qed.

Lemma loop_stdout (urls : list string) (w : World) :
  stdout (loop_world env urls w) =
    stdout w ++
    concat (map (fun u => lines_of u (output_file_of u)
                            (outcome env u (output_file_of u))) urls).
Proof.
  revert w. induction urls as [|u r IH]; intros w; cbn [loop_world map concat].
  - by rewrite app_nil_r.
  - rewrite IH. cbn [world_after stdout]. by rewrite <- app_assoc.
Qed.

Lemma loop_calls (urls : list string) (w : World) :
  calls (loop_world env urls w) =
    calls w ++
    concat (map (fun u => calls_of u (outcome env u (output_file_of u))) urls).
Proof.
  revert w. induction urls as [|u r IH]; intros w; cbn [loop_world map concat].
  - by rewrite app_nil_r.
  - rewrite IH. cbn [world_after calls]. by rewrite <- app_assoc.
Qed.

Lemma fs_after_lookup (url output_file : string) (o : Outcome) (f : gmap string string) :
  fs_after url output_file o f !! output_file
  = file_after url output_file o (f !! output_file).
Proof. destruct o; cbn; by rewrite ?lookup_insert_eq. Qed.

Lemma fs_after_other (url output_file path : string) (o : Outcome)
    (f : gmap string string) :
  path ≠ output_file -> fs_after url output_file o f !! path = f !! path.
Proof. intros Hne. destruct o; cbn; by rewrite ?lookup_insert_ne. Qed.

(** The loop only touches the output files of its URLs. *)
Lemma loop_fs_other (urls : list string) (w : World) (path : string) :
  path ∉ map output_file_of urls ->
  fs (loop_world env urls w) !! path = fs w !! path.
Proof.
  revert w. induction urls as [|u r IH]; intros w Hnot; [done|].
  cbn [loop_world]. cbn [map] in Hnot.
  apply not_elem_of_cons in Hnot as [Hne Hr].
  rewrite (IH _ Hr). cbn [world_after fs]. by apply fs_after_other.
Qed.

(** With distinct output files, the file of a URL is what its own
    processing left. *)
Lemma loop_fs_lookup (urls : list string) (w : World) (url : string) :
  NoDup (map output_file_of urls) ->
  url ∈ urls ->
  fs (loop_world env urls w) !! output_file_of url
  = file_after url (output_file_of url) (outcome env url (output_file_of url))
      (fs w !! output_file_of url).
Proof.
  revert w. induction urls as [|u r IH]; intros w Hnd Hin.
  - by apply elem_of_nil in Hin.
  - cbn [map] in Hnd. apply NoDup_cons in Hnd as [Hfresh Hnd].
    cbn [loop_world].
    destruct (decide (output_file_of url = output_file_of u)) as [Heq|Hne].
    + assert (url ∈ r -> False) as Hnotin.
      { intros Hr. apply Hfresh. rewrite <- Heq.
        apply list_elem_of_fmap. by exists url. }
      apply elem_of_cons in Hin as [->|Hr]; [|done].
      rewrite loop_fs_other by done. cbn [world_after fs].
      apply fs_after_lookup.
    + apply elem_of_cons in Hin as [->|Hr]; [done|].
      rewrite (IH _ Hnd Hr). cbn [world_after fs].
      by rewrite fs_after_other.
Qed.

End Loop.

Section Results.

Variable env : Env.

Lemma results_after_other (url key : string) (results : gmap string string) :
  key ≠ page_name_of url -> results_after env url results !! key = results !! key.
Proof.
  intros Hne. unfold results_after.
  destruct (recorded _); [|done]. by rewrite lookup_insert_ne.
Qed.

Lemma loop_results_other (urls : list string) (results : gmap string string)
    (key : string) :
  key ∉ map page_name_of urls ->
  loop_results env urls results !! key = results !! key.
Proof.
  revert results. induction urls as [|u r IH]; intros results Hnot; [done|].
  cbn [map] in Hnot. apply not_elem_of_cons in Hnot as [Hne Hr].
  cbn [loop_results]. rewrite (IH _ Hr). by apply results_after_other.
Qed.

(** With distinct page names, the entry of a URL is the text recorded for
    it, or the entry the mapping had before when nothing was recorded. *)
Lemma loop_results_lookup (urls : list string) (results : gmap string string)
    (url : string) :
  NoDup (map page_name_of urls) ->
  url ∈ urls ->
  loop_results env urls results !! page_name_of url
  = match recorded (outcome env url (output_file_of url)) with
    | Some t => Some t
    | None => results !! page_name_of url
    end.
Proof.
  revert results. induction urls as [|u r IH]; intros results Hnd Hin.
  - by apply elem_of_nil in Hin.
  - cbn [map] in Hnd. apply NoDup_cons in Hnd as [Hfresh Hnd].
    cbn [loop_results].
    destruct (decide (page_name_of url = page_name_of u)) as [Heq|Hne].
    + assert (url ∈ r -> False) as Hnotin.
      { intros Hr. apply Hfresh. rewrite <- Heq.
        apply list_elem_of_fmap. by exists url. }
      apply elem_of_cons in Hin as [->|Hr]; [|done].
      rewrite loop_results_other by done. unfold results_after.
      destruct (recorded _); [|done]. by rewrite lookup_insert_eq.
    + apply elem_of_cons in Hin as [->|Hr]; [done|].
      rewrite (IH _ Hnd Hr). by rewrite results_after_other.
Qed.

(** The size of the mapping grows by one for each URL recorded, when the
    page names are distinct and new to the mapping. *)
Lemma loop_results_size (urls : list string) (results : gmap string string) :
  NoDup (map page_name_of urls) ->
  (forall u, u ∈ urls -> results !! page_name_of u = None) ->
  size (loop_results env urls results)
  = size results + length (List.filter (is_recorded env) urls).
Proof.
  revert results. induction urls as [|u r IH]; intros results Hnd Hnew.
  - cbn. lia.
  - cbn [map] in Hnd. apply NoDup_cons in Hnd as [Hfresh Hnd].
    cbn [loop_results List.filter]. rewrite IH; [|done|].
    + unfold results_after, is_recorded at 2.
      destruct (recorded (outcome env u (output_file_of u))) as [t|] eqn:Hrec.
      * rewrite bool_decide_eq_true_2 by eauto.
        rewrite map_size_insert_None by (apply Hnew, elem_of_cons; by left).
        cbn [length]. lia.
      * rewrite bool_decide_eq_false_2; [done|]. by intros [? ?].
    + intros v Hv.
      rewrite results_after_other; [apply Hnew, elem_of_cons; by right|].
      intros Heq. apply Hfresh. rewrite <- Heq.
      apply list_elem_of_fmap. by exists v.
Qed.

(** The entries of the mapping the loop builds from the empty one. *)
Lemma run_results_lookup (url : string) :
  url ∈ DOCS_URLS ->
  loop_results env DOCS_URLS ∅ !! page_name_of url
  = recorded (outcome env url (output_file_of url)).
Proof.
  intros Hin. rewrite (loop_results_lookup _ _ _ page_names_distinct Hin).
  by destruct (recorded _).
Qed.

Lemma run_results_size :
  size (loop_results env DOCS_URLS ∅) = length (List.filter (is_recorded env) DOCS_URLS).
Proof.
  rewrite (loop_results_size _ _ page_names_distinct); [by rewrite map_size_empty|].
  intros u _. apply lookup_empty.
Qed.

End Results.

Section Run.

Variable env : Env.

(** The Notion step raises exactly when its outcome is a failure. *)
Lemma scrape_notion_run (w : World) :
  scrape_notion env w =
    (match notion_failure (notion_outcome env) with
     | Some msg => Raised msg
     | None => Ok tt
     end, notion_world_after env w).
Proof.
  unfold scrape_notion, notion_world_after, notion_outcome, bind, print, modify,
    page_goto, page_wait_for_timeout, page_evaluate_body_text, write_file,
    current_url, get_page, record, set_page, set_file, check, ret, raise.
  destruct w as [f d out pg cs]; cbn.
  destruct (goto_fault env NOTION_URL) as [m|]; cbn; [same_world|].
  destruct (timeout_fault env NOTION_URL) as [m|]; cbn; [same_world|].
  destruct (evaluate_fault env NOTION_URL) as [m|]; cbn; [same_world|].
  destruct (Dom.document_body (document_of env NOTION_URL)) as [[p body]|]; cbn;
    [|same_world].
  destruct (open_fault env NOTION_FILE) as [m|]; cbn; [same_world|].
  destruct (write_fault env NOTION_FILE (innerText env body)) as [[n m]|]; cbn;
    same_world.
Qed.

(** The whole script: it raises exactly when the Notion step does, and then
    stops before [browser.close()] and the summary. *)
Lemma script_run (w : World) :
  script env w =
    let w' := before_close env w in
    match notion_failure (notion_outcome env) with
    | Some msg => (Raised msg, w')
    | None =>
        (Ok tt,
         mkWorld (fs w') (dirs w')
                 (stdout w' ++ summary_lines (loop_results env DOCS_URLS ∅))
                 (page w') (calls w' ++ [Close]))
    end.
Proof.
  unfold script, main, before_close.
  unfold bind at 1. unfold makedirs, modify.
  do 3 (unfold bind at 1; unfold record at 1; unfold modify).
  unfold bind at 1. rewrite scrape_all_run.
  unfold bind at 1. rewrite scrape_notion_run.
  cbn [calls fs dirs stdout page]. rewrite <- !app_assoc. cbn [app].
  fold (prelude w).
  destruct (notion_failure (notion_outcome env)) as [msg|]; [done|].
  unfold bind, record, print_summary, print, modify, bind. cbn.
  by rewrite <- !app_assoc.
Qed.

End Run.

(** *** The extraction script *)

Section Extraction.

Variable env : Env.

Lemma select_container_node_at (root : Dom.Node) (p : Dom.Path) (c : Dom.Node) :
  select_container root = Some (p, c) -> Dom.node_at p root = Some c.
Proof.
  unfold select_container, Dom.or_else. intros H.
  repeat match type of H with
         | match ?q with _ => _ end = _ =>
             let E := fresh "E" in
             destruct q as [[p' c']|] eqn:E;
             [injection H as -> ->; by eapply DomFacts.querySelector_node_at|]
         end.
  by apply DomFacts.document_body_node_at.
Qed.

(** The script reads the container back from the document it has changed:
    what it returns is rendered from the stripped container. *)
Lemma extract_run (root : Dom.Node) :
  extract env root =
    match select_container root with
    | None => Raised NULL_ERROR
    | Some (p, c) =>
        let main := Dom.remove_matching SCRIPT_STYLE c in
        let root' := Dom.update_at p (Dom.remove_matching SCRIPT_STYLE) root in
        Ok (root', mkContent (innerText env main) (innerHTML env main)
                             (documentTitle env root'))
    end.
Proof.
  unfold extract. destruct (select_container root) as [[p c]|] eqn:Hsel; [|done].
  apply select_container_node_at in Hsel.
  by rewrite (DomFacts.node_at_update_at _ _ _ _ Hsel).
Qed.

End Extraction.

Section WholeRun.

Variable env : Env.

Lemma final_world_run (w : World) :
  final_world env w =
    let w' := before_close env w in
    match notion_failure (notion_outcome env) with
    | Some _ => w'
    | None =>
        mkWorld (fs w') (dirs w')
                (stdout w' ++ summary_lines (loop_results env DOCS_URLS ∅))
                (page w') (calls w' ++ [Close])
    end.
Proof.
  unfold final_world. rewrite script_run. cbn zeta.
  by destruct (notion_failure (notion_outcome env)).
Qed.

Lemma final_fs (w : World) :
  fs (final_world env w) =
    notion_fs_after (notion_outcome env) (fs (loop_world env DOCS_URLS (prelude w))).
Proof.
  rewrite final_world_run. cbn zeta.
  by destruct (notion_failure (notion_outcome env)).
Qed.

Lemma notion_fs_after_other (o : NotionOutcome) (f : gmap string string)
    (path : string) :
  path ≠ NOTION_FILE -> notion_fs_after o f !! path = f !! path.
Proof. intros Hne. destruct o; cbn; by rewrite ?lookup_insert_ne. Qed.

Lemma notion_fs_after_lookup (o : NotionOutcome) (f : gmap string string) :
  notion_fs_after o f !! NOTION_FILE = notion_file_after o (f !! NOTION_FILE).
Proof. destruct o; cbn; by rewrite ?lookup_insert_eq. Qed.

(** After the run, the output file of a fixed-list URL is what the
    processing of that URL left. *)
Lemma final_file_of_url (w : World) (url : string) :
  url ∈ DOCS_URLS ->
  fs (final_world env w) !! output_file_of url
  = file_after url (output_file_of url) (outcome env url (output_file_of url))
      (fs w !! output_file_of url).
Proof.
  intros Hin. rewrite final_fs.
  rewrite notion_fs_after_other by by apply output_file_not_notion.
  by rewrite (loop_fs_lookup env _ _ _ output_files_distinct Hin).
Qed.

(** After the run, the Notion file is what the Notion step left. *)
Lemma final_notion_file (w : World) :
  fs (final_world env w) !! NOTION_FILE
  = notion_file_after (notion_outcome env) (fs w !! NOTION_FILE).
Proof.
  rewrite final_fs, notion_fs_after_lookup.
  by rewrite (loop_fs_other env _ _ _ notion_file_not_output).
Qed.

End WholeRun.


(** ** The claims *)

(** *** C1: what a failed URL leaves on disk *)

(** C1, as stated, fails: when the disk fills up while [overview.json] is
    written, the processing of that URL fails ([scrape_page] returns
    [None]), yet the file is on disk after the call and after the run,
    holding the single byte that was written. *)
Lemma C1_counterexample :
  fst (scrape_page Sample.disk_full_on_overview Sample.OVERVIEW
         (output_file_of Sample.OVERVIEW) Sample.empty_world) = Ok None /\
  fs (snd (scrape_page Sample.disk_full_on_overview Sample.OVERVIEW
             (output_file_of Sample.OVERVIEW) Sample.empty_world))
    !! "docs_scraped/overview.json" = Some "{" /\
  fs (final_world Sample.disk_full_on_overview Sample.empty_world)
    !! "docs_scraped/overview.json" = Some "{".
Proof. split_and!; by vm_compute. Qed.

(** C1, amended: for a fixed-list URL whose processing fails at navigation,
    at the selector wait, in the extraction or when the output file is
    opened, [scrape_page] returns [None] and leaves the files as they were,
    and after the run the output path of the URL holds what it held before
    the run (no file when there was none).  When the processing fails while
    the opened file is written, [scrape_page] returns [None] as well, but
    the file stays on disk with only the bytes written before the failure. *)
Theorem C1_failed_url_files (env : Env) (w : World) (url : string) (step : Step) :
  url ∈ DOCS_URLS ->
  failed_step (outcome env url (output_file_of url)) = Some step ->
  fst (scrape_page env url (output_file_of url) w) = Ok None /\
  (step <> FileWrite ->
     fs (snd (scrape_page env url (output_file_of url) w)) = fs w /\
     fs (final_world env w) !! output_file_of url = fs w !! output_file_of url) /\
  (step = FileWrite ->
     exists root' content n msg,
       outcome env url (output_file_of url) = WriteFailed root' content n msg /\
       fs (snd (scrape_page env url (output_file_of url) w)) !! output_file_of url
         = Some (substring 0 n (page_json url content)) /\
       fs (final_world env w) !! output_file_of url
         = Some (substring 0 n (page_json url content))).
Proof.
  intros Hin Hstep. rewrite scrape_page_run, final_file_of_url by done.
  cbn [fst snd world_after fs]. rewrite fs_after_lookup.
  destruct (outcome env url (output_file_of url)) as [m|m|m|r c m|r c n m|r c];
    cbn in Hstep; simplify_eq; cbn;
    (split_and!; [done| |]); try done.
  intros _. by exists r, c, n, m.
Qed.

(** The disk-full run is an instance: the write to [overview.json] fails. *)
Lemma C1_failed_url_files_witness :
  Sample.OVERVIEW ∈ DOCS_URLS /\
  failed_step (outcome Sample.disk_full_on_overview Sample.OVERVIEW
                 (output_file_of Sample.OVERVIEW)) = Some FileWrite /\
  fst (scrape_page Sample.disk_full_on_overview Sample.OVERVIEW
         (output_file_of Sample.OVERVIEW) Sample.empty_world) = Ok None.
Proof.
  assert (Sample.OVERVIEW ∈ DOCS_URLS) as Hin
    by (by apply (bool_decide_unpack _); vm_compute).
  assert (failed_step (outcome Sample.disk_full_on_overview Sample.OVERVIEW
                         (output_file_of Sample.OVERVIEW)) = Some FileWrite) as Hstep
    by (by vm_compute).
  split_and!; [done..|].
  exact (proj1 (C1_failed_url_files Sample.disk_full_on_overview Sample.empty_world
                  Sample.OVERVIEW FileWrite Hin Hstep)).
Defined.

(** *** C4: a failure of the Notion step *)

(** C4, as stated, fails: when the disk fills up while the Notion file is
    written, the run ends with an uncaught exception and exit status 1, but
    [docs_scraped/notion_api_docs.txt] has been produced and holds the five
    bytes that were written. *)
Lemma C4_counterexample :
  fst (script Sample.disk_full_on_notion Sample.empty_world)
    = Raised "No space left on device" /\
  exit_code Sample.disk_full_on_notion Sample.empty_world = 1 /\
  fs Sample.empty_world !! "docs_scraped/notion_api_docs.txt" = None /\
  fs (final_world Sample.disk_full_on_notion Sample.empty_world)
    !! "docs_scraped/notion_api_docs.txt" = Some "Monit".
Proof. split_and!; by vm_compute. Qed.

(** C4, amended: when the Notion step fails, at whatever step, the exception
    is not caught: the script raises it and the process exits with status 1.
    When the step fails at navigation, at the settle wait, in the extraction
    or when the file is opened, [docs_scraped/notion_api_docs.txt] is as it
    was before the run (absent when it was absent); when it fails while the
    opened file is written, the file stays on disk with only the bytes
    written before the failure. *)
Theorem C4_notion_failure_aborts (env : Env) (w : World) (step : Step) :
  notion_failed_step (notion_outcome env) = Some step ->
  (exists msg, fst (script env w) = Raised msg) /\
  exit_code env w = 1 /\
  (step <> FileWrite ->
     fs (final_world env w) !! NOTION_FILE = fs w !! NOTION_FILE) /\
  (step = FileWrite ->
     exists body_text n msg,
       notion_outcome env = NotionWriteFailed body_text n msg /\
       fs (final_world env w) !! NOTION_FILE = Some (substring 0 n body_text)).
Proof.
  intros Hstep. unfold exit_code.
  rewrite final_notion_file, script_run. cbn zeta.
  destruct (notion_outcome env) as [m|m|m|t m|t n m|t];
    cbn in Hstep; simplify_eq; cbn;
    (split_and!; [by eexists|done| |]); try done.
  intros _. by exists t, n, m.
Qed.

Lemma C4_notion_failure_aborts_witness :
  notion_failed_step (notion_outcome Sample.notion_times_out) = Some Navigation /\
  exit_code Sample.notion_times_out Sample.empty_world = 1.
Proof.
  assert (notion_failed_step (notion_outcome Sample.notion_times_out)
          = Some Navigation) as Hstep by (by vm_compute).
  split; [done|].
  exact (proj1 (proj2 (C4_notion_failure_aborts Sample.notion_times_out
                         Sample.empty_world Navigation Hstep))).
Defined.

(** *** The exit status with a working host *)

(** With the session acquired and closed and every line printed, the exit
    status is 1 when the Notion step raises and 0 otherwise. *)
Lemma exit_code_of_script (env : Env) (w : World) :
  exit_code env w
    = match notion_failure (notion_outcome env) with
      | Some _ => 1
      | None => 0
      end /\
  forall (env' : Env) (w' : World),
    notion_outcome env' = notion_outcome env ->
    exit_code env' w' = exit_code env w.
Proof.
  assert (forall e v, exit_code e v
            = match notion_failure (notion_outcome e) with
              | Some _ => 1
              | None => 0
              end) as Hcode.
  { intros e v. unfold exit_code. rewrite script_run. cbn zeta.
    by destruct (notion_failure (notion_outcome e)). }
  split; [apply Hcode|].
  intros env' w' Heq. by rewrite !Hcode, Heq.
Qed.

(** *** What the run prints and which browser calls it makes *)

Lemma elem_of_concat {A : Type} (x : A) (ls : list (list A)) :
  x ∈ concat ls -> exists l, x ∈ l /\ l ∈ ls.
Proof.
  induction ls as [|l ls IH]; cbn [concat]; intros Hin.
  - by apply elem_of_nil in Hin.
  - apply elem_of_app in Hin as [Hin|Hin].
    + exists l. split; [done|by left].
    + destruct (IH Hin) as (l' & Hx & Hl). exists l'. split; [done|by right].
Qed.

Section Trace.

Variable env : Env.

(** The lines and the calls of the loop and of the Notion step. *)
Lemma before_close_stdout (w : World) :
  stdout (before_close env w) =
    stdout w ++
    concat (map (fun u => lines_of u (output_file_of u)
                            (outcome env u (output_file_of u))) DOCS_URLS) ++
    notion_lines (notion_outcome env).
Proof.
  unfold before_close, notion_world_after. cbn [stdout].
  rewrite loop_stdout. cbn [prelude stdout]. by rewrite <- app_assoc.
Qed.

Lemma before_close_calls (w : World) :
  calls (before_close env w) =
    calls w ++
    [Launch; NewContext USER_AGENT; NewPage] ++
    concat (map (fun u => calls_of u (outcome env u (output_file_of u))) DOCS_URLS) ++
    notion_calls (notion_outcome env).
Proof.
  unfold before_close, notion_world_after. cbn [calls].
  rewrite loop_calls. cbn [prelude calls]. by rewrite <- !app_assoc.
Qed.

Lemma lines_of_not_summary (url output_file : string) (o : Outcome) :
  Forall (fun line => is_summary_line line = false) (lines_of url output_file o).
Proof.
  unfold lines_of. destruct (failure o); by repeat constructor.
Qed.

Lemma notion_lines_not_summary (o : NotionOutcome) :
  Forall (fun line => is_summary_line line = false) (notion_lines o).
Proof. destruct o; by repeat constructor. Qed.

Lemma summary_lines_are_summary (results : gmap string string) :
  Forall (fun line => is_summary_line line = true) (summary_lines results).
Proof. by repeat constructor. Qed.

Lemma calls_of_no_close (url : string) (o : Outcome) : Close ∉ calls_of url o.
Proof.
  intros Hin. destruct o; cbn in Hin;
    repeat (apply elem_of_cons in Hin as [?|Hin]; [done|]);
    by apply elem_of_nil in Hin.
Qed.

Lemma notion_calls_no_close (o : NotionOutcome) : Close ∉ notion_calls o.
Proof.
  intros Hin. destruct o; cbn in Hin;
    repeat (apply elem_of_cons in Hin as [?|Hin]; [done|]);
    by apply elem_of_nil in Hin.
Qed.

End Trace.

(** *** C10: nothing runs after a failed Notion step *)

(** C10: when the Notion step raises, the script raises; none of the browser
    calls the run has made is [browser.close()], and none of the lines it
    has printed is a line of the summary, whatever the results of the
    fixed-list pages were. *)
Theorem C10_no_close_no_summary (env : Env) (w : World) (msg : string) :
  notion_failure (notion_outcome env) = Some msg ->
  fst (script env w) = Raised msg /\
  exists new_calls new_lines,
    calls (final_world env w) = calls w ++ new_calls /\
    (Close ∉ new_calls) /\
    stdout (final_world env w) = stdout w ++ new_lines /\
    forall (results : gmap string string) (line : string),
      line ∈ summary_lines results -> line ∉ new_lines.
Proof.
  intros Hfail. rewrite final_world_run, script_run. cbn zeta. rewrite Hfail.
  split; [done|].
  eexists _, _. split_and!.
  - apply before_close_calls.
  - intros Hin.
    apply elem_of_app in Hin as [Hin|Hin].
    { repeat (apply elem_of_cons in Hin as [?|Hin]; [done|]).
      by apply elem_of_nil in Hin. }
    apply elem_of_app in Hin as [Hin|Hin].
    + apply elem_of_concat in Hin as (l & Hin & Hl).
      apply list_elem_of_fmap in Hl as (u & -> & _).
      by apply calls_of_no_close in Hin.
    + by apply notion_calls_no_close in Hin.
  - apply before_close_stdout.
  - intros results line Hsum Hin.
    pose proof (summary_lines_are_summary results) as Hyes.
    rewrite Forall_forall in Hyes. specialize (Hyes line Hsum).
    assert (is_summary_line line = false) as Hno; [|congruence].
    apply elem_of_app in Hin as [Hin|Hin].
    + apply elem_of_concat in Hin as (l & Hin & Hl).
      apply list_elem_of_fmap in Hl as (u & -> & _).
      pose proof (lines_of_not_summary u (output_file_of u)
                    (outcome env u (output_file_of u))) as H.
      rewrite Forall_forall in H. by apply H.
    + pose proof (notion_lines_not_summary (notion_outcome env)) as H.
      rewrite Forall_forall in H. by apply H.
Qed.

Lemma C10_no_close_no_summary_witness :
  notion_failure (notion_outcome Sample.notion_times_out)
    = Some "Timeout 30000ms exceeded." /\
  fst (script Sample.notion_times_out Sample.empty_world)
    = Raised "Timeout 30000ms exceeded.".
Proof.
  assert (notion_failure (notion_outcome Sample.notion_times_out)
          = Some "Timeout 30000ms exceeded.") as Hfail by (by vm_compute).
  split; [done|].
  exact (proj1 (C10_no_close_no_summary Sample.notion_times_out Sample.empty_world
                  _ Hfail)).
Defined.

(** *** C3: a failing URL is skipped and the run goes on *)

Section Isolation.

Variable env : Env.

Lemma filter_concat {A : Type} (f : A -> bool) (ls : list (list A)) :
  List.filter f (concat ls) = concat (map (List.filter f) ls).
Proof.
  induction ls as [|l ls IH]; [done|].
  cbn [concat map]. by rewrite List.filter_app, IH.
Qed.

(** When one element of a duplicate-free list yields [[y]] and the others
    yield nothing, the whole yields [[y]]. *)
Lemma concat_single {A B : Type} (g : A -> list B) (l : list A) (x : A) (y : B) :
  NoDup l -> x ∈ l -> g x = [y] ->
  (forall u, u ∈ l -> u <> x -> g u = []) ->
  concat (map g l) = [y].
Proof.
  induction l as [|a l IH]; intros Hnd Hin Hx Hothers.
  - by apply elem_of_nil in Hin.
  - apply NoDup_cons in Hnd as [Ha Hnd]. cbn [map concat].
    assert (forall u, u ∈ l -> u <> x -> g u = []) as Hrest.
    { intros u Hu. apply Hothers. by right. }
    apply elem_of_cons in Hin as [->|Hin].
    + rewrite Hx. cbn [app]. f_equal.
      clear IH Hnd Hothers. induction l as [|b l IH]; [done|].
      cbn [map concat]. apply not_elem_of_cons in Ha as [Hne Ha].
      rewrite Hrest; [|by left|done]. cbn [app].
      apply IH; [done|]. intros u Hu. apply Hrest. by right.
    + rewrite Hothers; [|by left|by intros ->]. cbn [app]. by apply IH.
Qed.

Lemma error_lines_of (url output_file : string) (o : Outcome) :
  List.filter is_error_line (lines_of url output_file o)
  = match failure o with
    | Some msg => [error_line url msg]
    | None => []
    end.
Proof. unfold lines_of. by destruct (failure o). Qed.

Lemma error_lines_notion (o : NotionOutcome) :
  List.filter is_error_line (notion_lines o) = [].
Proof. by destruct o. Qed.

Lemma error_lines_summary (results : gmap string string) :
  List.filter is_error_line (summary_lines results) = [].
Proof. done. Qed.

(** The lines and the calls of the whole run. *)
Lemma final_stdout (w : World) :
  stdout (final_world env w) =
    stdout w ++
    (concat (map (fun u => lines_of u (output_file_of u)
                             (outcome env u (output_file_of u))) DOCS_URLS) ++
     notion_lines (notion_outcome env) ++
     match notion_failure (notion_outcome env) with
     | Some _ => []
     | None => summary_lines (loop_results env DOCS_URLS ∅)
     end).
Proof.
  rewrite final_world_run. cbn zeta.
  destruct (notion_failure (notion_outcome env)); cbn [stdout];
    rewrite before_close_stdout, <- ?app_assoc; [by rewrite app_nil_r|done].
Qed.

Lemma final_calls_goto_notion (w : World) :
  Goto NOTION_URL ∈ calls (final_world env w).
Proof.
  assert (Goto NOTION_URL ∈ calls (before_close env w)) as Hin.
  { rewrite before_close_calls. do 3 (apply elem_of_app; right).
    destruct (notion_outcome env); by left. }
  rewrite final_world_run. cbn zeta.
  destruct (notion_failure (notion_outcome env)); cbn [calls]; [done|].
  apply elem_of_app. by left.
Qed.

End Isolation.

Lemma docs_urls_distinct : NoDup DOCS_URLS.
Proof. by apply (bool_decide_unpack _); vm_compute. Qed.

Lemma docs_urls_without_one (failed : string) :
  failed ∈ DOCS_URLS ->
  length (List.filter (fun u => negb (String.eqb u failed)) DOCS_URLS) = 7.
Proof.
  intros Hin. apply list_elem_of_In in Hin.
  repeat (destruct Hin as [<-|Hin]; [by vm_compute|]). destruct Hin.
Qed.


(** *** C6: the summary *)




(** *** C2 and C9: files, successes and recorded results *)

Section Recorded.

Variable env : Env.

(** How the opening of the output file went, read off the outcome. *)
Lemma outcome_open_fault (url output_file : string) :
  match outcome env url output_file with
  | OpenFailed _ _ msg => open_fault env output_file = Some msg
  | WriteFailed _ _ _ _ | Saved _ _ => open_fault env output_file = None
  | _ => True
  end.
Proof.
  unfold outcome.
  destruct (goto_fault env url); [done|].
  destruct (selector_fault env url); [done|].
  destruct (evaluate_fault env url); [done|].
  destruct (extract env (document_of env url)) as [[root' c]|]; [|done].
  destruct (open_fault env output_file); [done|].
  by destruct (write_fault env output_file (page_json url c)) as [[n m]|].
Qed.

(** A URL is recorded exactly when it was saved with a text that is not
    empty. *)
Lemma recorded_iff (o : Outcome) :
  is_Some (recorded o) <-> exists root' content, o = Saved root' content /\
                                                 text content <> EmptyString.
Proof.
  unfold recorded. split.
  - destruct o as [m|m|m|r c m|r c n m|r c]; cbn; try by intros [? ?].
    destruct (String.eqb (text c) EmptyString) eqn:Ht; cbn; [by intros [? ?]|].
    intros _. exists r, c. split; [done|]. by apply String.eqb_neq.
  - intros (r & c & -> & Ht). cbn.
    apply String.eqb_neq in Ht. rewrite Ht. cbn. by eexists.
Qed.

Lemma filter_length_lt {A : Type} (f : A -> bool) (l : list A) (x : A) :
  x ∈ l -> f x = false -> length (List.filter f l) < length l.
Proof.
  induction l as [|y l IH]; intros Hin Hx.
  - by apply elem_of_nil in Hin.
  - cbn [List.filter length].
    pose proof (List.filter_length_le f l) as Hle.
    apply elem_of_cons in Hin as [<-|Hin].
    + rewrite Hx. lia.
    + specialize (IH Hin Hx). destruct (f y); cbn [length]; lia.
Qed.

End Recorded.

(** C2, as stated, fails, in one run with three mishaps.  The overview page
    is extracted and saved with an empty text: its file exists, but the URL
    is not recorded as a success.  The monitors page is extracted, but its
    file cannot be opened: no file exists.  The navigation to the
    statuspages page fails, but the file of an earlier run is still there:
    a file exists. *)
Lemma C2_counterexample :
  let results := loop_results Sample.mixed DOCS_URLS ∅ in
  let after := fs (final_world Sample.mixed Sample.stale_world) in
  fst (scrape_all Sample.mixed DOCS_URLS ∅ (prelude Sample.stale_world)) = Ok results /\
  (fst (scrape_page Sample.mixed Sample.OVERVIEW (output_file_of Sample.OVERVIEW)
          Sample.stale_world) = Ok (Some EmptyString) /\
   is_Some (after !! "docs_scraped/overview.json") /\
   results !! "overview" = None) /\
  (is_Some (extracted (outcome Sample.mixed Sample.MONITORS
                         (output_file_of Sample.MONITORS))) /\
   after !! "docs_scraped/monitors.json" = None) /\
  (extracted (outcome Sample.mixed Sample.STATUSPAGES
                (output_file_of Sample.STATUSPAGES)) = None /\
   after !! "docs_scraped/statuspages.json" = Some "{}").
Proof.
  cbn zeta. split_and!; (by vm_compute) || (by vm_compute; eexists).
Qed.

(** C2, amended: for a fixed-list URL whose output path held no file before
    the run, a file exists at that path after the run exactly when the
    extraction succeeded for the URL and the file could be opened; the URL
    is recorded as a success exactly when it was saved (extraction, opening
    and writing succeeded) and the extracted text is not empty; and a URL
    that was saved has its complete JSON file. *)
Theorem C2_file_iff_extracted (env : Env) (w : World) (url : string) :
  url ∈ DOCS_URLS ->
  fs w !! output_file_of url = None ->
  exists results : gmap string string,
    (forall w0, fst (scrape_all env DOCS_URLS ∅ w0) = Ok results) /\
    (is_Some (fs (final_world env w) !! output_file_of url)
     <-> is_Some (extracted (outcome env url (output_file_of url))) /\
         open_fault env (output_file_of url) = None) /\
    (is_Some (results !! page_name_of url)
     <-> exists root' content,
           outcome env url (output_file_of url) = Saved root' content /\
           text content <> EmptyString) /\
    (forall root' content,
       outcome env url (output_file_of url) = Saved root' content ->
       fs (final_world env w) !! output_file_of url = Some (page_json url content)).
Proof.
  intros Hin Hfresh. exists (loop_results env DOCS_URLS ∅). split_and!.
  - intros w0. by rewrite scrape_all_run.
  - rewrite final_file_of_url, Hfresh by done.
    pose proof (outcome_open_fault env url (output_file_of url)) as Hopen.
    destruct (outcome env url (output_file_of url)) as [m|m|m|r c m|r c n m|r c];
      cbn; split; try (by intros [? ?]); try (by intros [[? ?] ?]);
      try (by intros _; split; [eexists|]).
    intros [_ Hnone]. congruence.
  - rewrite run_results_lookup by done. apply recorded_iff.
  - intros r c Ho. rewrite final_file_of_url by done. by rewrite Ho.
Qed.

Lemma C2_file_iff_extracted_witness :
  Sample.MONITORS ∈ DOCS_URLS /\
  fs Sample.empty_world !! output_file_of Sample.MONITORS = None /\
  exists results : gmap string string,
    forall w0, fst (scrape_all Sample.all_ok DOCS_URLS ∅ w0) = Ok results.
Proof.
  assert (Sample.MONITORS ∈ DOCS_URLS) as Hin
    by (by apply (bool_decide_unpack _); vm_compute).
  assert (fs Sample.empty_world !! output_file_of Sample.MONITORS = None) as Hfresh
    by (by vm_compute).
  split_and!; [done..|].
  destruct (C2_file_iff_extracted Sample.all_ok Sample.empty_world Sample.MONITORS
              Hin Hfresh) as (results & Hres & _).
  by exists results.
Defined.

(** C9: when [scrape_page] succeeds for a fixed-list URL with an empty text,
    the JSON file of the URL is written, after the call and after the run;
    the returned text is falsy, so the loop body leaves the results mapping
    as it was, the URL has no entry in the mapping the loop builds, and the
    summary count, the number of URLs recorded, does not count it. *)
Theorem C9_empty_text_not_recorded (env : Env) (w : World) (url : string) :
  url ∈ DOCS_URLS ->
  fst (scrape_page env url (output_file_of url) w) = Ok (Some EmptyString) ->
  (exists content,
     text content = EmptyString /\
     fs (snd (scrape_page env url (output_file_of url) w)) !! output_file_of url
       = Some (page_json url content) /\
     fs (final_world env w) !! output_file_of url = Some (page_json url content)) /\
  truthy (Some EmptyString) = false /\
  (forall results w0, fst (scrape_one env url results w0) = Ok results) /\
  exists results : gmap string string,
    (forall w0, fst (scrape_all env DOCS_URLS ∅ w0) = Ok results) /\
    results !! page_name_of url = None /\
    is_recorded env url = false /\
    size results = length (List.filter (is_recorded env) DOCS_URLS) /\
    size results < length DOCS_URLS /\
    (notion_failure (notion_outcome env) = None ->
     summary_line (size results) ∈ stdout (final_world env w)).
Proof.
  intros Hin Hret. rewrite scrape_page_run in Hret |- *. cbn [fst snd] in Hret |- *.
  rewrite final_file_of_url by done. cbn [world_after fs]. rewrite fs_after_lookup.
  assert (recorded (outcome env url (output_file_of url)) = None) as Hrec.
  { unfold recorded. injection Hret as ->. done. }
  assert (is_recorded env url = false) as Hnot.
  { unfold is_recorded. rewrite Hrec. apply bool_decide_eq_false. by intros [? ?]. }
  split_and!.
  - destruct (outcome env url (output_file_of url)) as [m|m|m|r c m|r c n m|r c];
      cbn in Hret; simplify_eq. by exists c.
  - done.
  - intros results w0. rewrite scrape_one_run. unfold results_after.
    by rewrite Hrec.
  - exists (loop_results env DOCS_URLS ∅). split_and!.
    + intros w0. by rewrite scrape_all_run.
    + by rewrite run_results_lookup.
    + done.
    + apply run_results_size.
    + rewrite run_results_size. by apply (filter_length_lt _ _ url).
    + intros Hok. rewrite final_stdout, Hok.
      do 3 (apply elem_of_app; right). right. by left.
Qed.

Lemma C9_empty_text_not_recorded_witness :
  Sample.OVERVIEW ∈ DOCS_URLS /\
  fst (scrape_page Sample.overview_empty Sample.OVERVIEW
         (output_file_of Sample.OVERVIEW) Sample.empty_world)
    = Ok (Some EmptyString) /\
  truthy (Some EmptyString) = false.
Proof.
  assert (Sample.OVERVIEW ∈ DOCS_URLS) as Hin
    by (by apply (bool_decide_unpack _); vm_compute).
  assert (fst (scrape_page Sample.overview_empty Sample.OVERVIEW
                 (output_file_of Sample.OVERVIEW) Sample.empty_world)
          = Ok (Some EmptyString)) as Hret by (by vm_compute).
  split_and!; [done..|].
  exact (proj1 (proj2 (C9_empty_text_not_recorded Sample.overview_empty
                         Sample.empty_world Sample.OVERVIEW Hin Hret))).
Defined.

(** *** The JSON text *)

Module JsonFacts.
Import Json.

Lemma append_cons (x : ascii) (a b : string) :
  String x a +:+ b = String x (a +:+ b).
Proof. reflexivity. Qed.

Lemma append_assoc (a b c : string) : (a +:+ b) +:+ c = a +:+ (b +:+ c).
Proof.
  induction a as [|x a IH]; [done|]. by rewrite !append_cons, IH.
Qed.

Lemma length_append (a b : string) :
  String.length (a +:+ b) = String.length a + String.length b.
Proof.
  induction a as [|x a IH]; [done|].
  rewrite append_cons. cbn [String.length]. by rewrite IH.
Qed.

Lemma expect_append (p s : string) : expect p (p +:+ s) = Some s.
Proof.
  induction p as [|x p IH]; [by destruct s|].
  rewrite append_cons. cbn [expect]. by rewrite Ascii.eqb_refl.
Qed.

(** Reading the escape of one character gives the character back. *)
Lemma decode_escape_char (c : ascii) (s : string) :
  decode_string (escape_char c +:+ s) = prepend c (decode_string s).
Proof. destruct c as [[] [] [] [] [] [] [] []]; reflexivity. Qed.

(** Reading a string literal gives the string back. *)
Lemma decode_string_escape (s rest : string) :
  decode_string (escape s +:+ dquote +:+ rest) = Some (s, rest).
Proof.
  induction s as [|c s IH]; [done|].
  cbn [escape]. by rewrite append_assoc, decode_escape_char, IH.
Qed.

(** A character that is neither a control character, nor the quote, nor
    the backslash is written as it is; so is every byte of a character
    outside ASCII. *)
Lemma escape_char_plain (c : ascii) :
  32 <= nat_of_ascii c -> nat_of_ascii c <> 34 -> nat_of_ascii c <> 92 ->
  escape_char c = String c EmptyString.
Proof.
  intros Hge Hq Hb. unfold escape_char.
  repeat match goal with
         | |- context [Nat.eqb ?a ?b] => destruct (Nat.eqb_spec a b); [lia|]
         end.
  destruct (Nat.ltb_spec (nat_of_ascii c) 32); [lia|done].
Qed.

Lemma member_layout (key value rest : string) :
  encode_member (key, value) +:+ rest
  = ("  " +:+ dquote) +:+ (escape key +:+ dquote +:+
      ((": " +:+ dquote) +:+ (escape value +:+ dquote +:+ rest))).
Proof.
  unfold encode_member, encode_string. cbn [fst snd].
  by rewrite !append_assoc.
Qed.

(** Reading one member. *)
Lemma decode_members_step (fuel : nat) (key value rest : string) :
  decode_members (S fuel) (encode_member (key, value) +:+ rest)
  = match expect ("," +:+ nl) rest with
    | Some s5 =>
        match decode_members fuel s5 with
        | Some members => Some ((key, value) :: members)
        | None => None
        end
    | None =>
        match expect (nl +:+ "}") rest with
        | Some EmptyString => Some [(key, value)]
        | _ => None
        end
    end.
Proof.
  rewrite member_layout. cbn [decode_members].
  rewrite expect_append, decode_string_escape.
  by rewrite expect_append, decode_string_escape.
Qed.

Lemma decode_members_join (members : list (string * string)) (fuel : nat) :
  members <> [] ->
  length members <= fuel ->
  decode_members fuel (join ("," +:+ nl) (map encode_member members) +:+ nl +:+ "}")
  = Some members.
Proof.
  revert fuel. induction members as [|[k v] ms IH]; intros fuel Hne Hfuel; [done|].
  destruct fuel as [|fuel]; [cbn in Hfuel; lia|].
  destruct ms as [|kv ms].
  - cbn [map join]. by rewrite decode_members_step.
  - change (join ("," +:+ nl) (map encode_member ((k, v) :: kv :: ms)))
      with (encode_member (k, v) +:+ ("," +:+ nl) +:+
            join ("," +:+ nl) (map encode_member (kv :: ms))).
    rewrite !append_assoc, decode_members_step.
    rewrite <- (append_assoc "," nl), expect_append.
    rewrite IH; [done|done|]. cbn [length] in *. lia.
Qed.

Lemma length_join (sep : string) (l : list string) :
  Forall (fun s => 1 <= String.length s) l ->
  length l <= String.length (join sep l).
Proof.
  induction 1 as [|s l Hs Hl IH]; [done|].
  destruct l as [|s' l]; [cbn; lia|].
  change (join sep (s :: s' :: l)) with (s +:+ sep +:+ join sep (s' :: l)).
  rewrite !length_append. cbn [length] in *. lia.
Qed.

(** What [dumps] writes reads back as the members it was given. *)
Lemma loads_dumps (members : list (string * string)) :
  loads (dumps members) = Some members.
Proof.
  destruct members as [|kv ms]; [done|].
  unfold loads, dumps.
  set (body := join ("," +:+ nl) (map encode_member (kv :: ms))).
  replace (String.eqb ("{" +:+ nl +:+ body +:+ nl +:+ "}") "{}") with false
    by (symmetry; apply String.eqb_neq; by cbn).
  rewrite <- (append_assoc "{" nl), expect_append.
  apply decode_members_join; [done|].
  rewrite !length_append.
  assert (length (kv :: ms) <= String.length body); [|lia].
  unfold body. rewrite <- (length_map encode_member (kv :: ms)).
  apply length_join, Forall_forall. intros s Hs.
  apply list_elem_of_fmap in Hs as ([k v] & -> & _).
  unfold encode_member. rewrite length_append. cbn. lia.
Qed.

End JsonFacts.

(** *** C7: the JSON file of a scraped URL *)

Lemma NoDup_map_eq {A B : Type} (f : A -> B) (l : list A) (x y : A) :
  NoDup (map f l) -> x ∈ l -> y ∈ l -> f x = f y -> x = y.
Proof.
  induction l as [|a l IH]; intros Hnd Hx Hy Heq.
  - by apply elem_of_nil in Hx.
  - cbn [map] in Hnd. apply NoDup_cons in Hnd as [Ha Hnd].
    apply elem_of_cons in Hx as [->|Hx]; apply elem_of_cons in Hy as [->|Hy].
    + done.
    + exfalso. apply Ha. rewrite Heq. apply list_elem_of_fmap. by exists y.
    + exfalso. apply Ha. rewrite <- Heq. apply list_elem_of_fmap. by exists x.
    + by apply IH.
Qed.

(** The text of the file: an object of four members, one per line, each
    indented by two spaces. *)
Lemma page_json_layout (url : string) (content : Content) :
  page_json url content =
    "{" +:+ nl +:+
    "  " +:+ dquote +:+ "url" +:+ dquote +:+ ": " +:+
      dquote +:+ Json.escape url +:+ dquote +:+ "," +:+ nl +:+
    "  " +:+ dquote +:+ "title" +:+ dquote +:+ ": " +:+
      dquote +:+ Json.escape (title content) +:+ dquote +:+ "," +:+ nl +:+
    "  " +:+ dquote +:+ "text" +:+ dquote +:+ ": " +:+
      dquote +:+ Json.escape (text content) +:+ dquote +:+ "," +:+ nl +:+
    "  " +:+ dquote +:+ "html" +:+ dquote +:+ ": " +:+
      dquote +:+ Json.escape (html content) +:+ dquote +:+ nl +:+
    "}".
Proof.
  unfold page_json, Json.dumps, Json.encode_member, Json.encode_string.
  cbn [map Json.join fst snd].
  rewrite !JsonFacts.append_assoc. reflexivity.
Qed.

(** C7: when [scrape_page] succeeds for a fixed-list URL, the one file it
    writes is [docs_scraped/<last path segment>.json], a path no other
    fixed-list URL has; the file is still there after the run; its text is
    a JSON object laid out with one member per line and two spaces of
    indentation; read back, it has exactly the four members [url], [title],
    [text], [html], all strings, [url] being the URL processed and [text]
    the text returned; and every character that is not a control character,
    the quote or the backslash, so every byte outside ASCII, is written
    unescaped. *)
Theorem C7_json_file (env : Env) (w : World) (url t : string) :
  url ∈ DOCS_URLS ->
  fst (scrape_page env url (output_file_of url) w) = Ok (Some t) ->
  output_file_of url = "docs_scraped/" +:+ last_item (split "/" url) +:+ ".json" /\
  (forall u, u ∈ DOCS_URLS -> output_file_of u = output_file_of url -> u = url) /\
  exists content,
    text content = t /\
    fs (snd (scrape_page env url (output_file_of url) w))
      = <[output_file_of url := page_json url content]> (fs w) /\
    fs (final_world env w) !! output_file_of url = Some (page_json url content) /\
    page_json url content =
      "{" +:+ nl +:+
      "  " +:+ dquote +:+ "url" +:+ dquote +:+ ": " +:+
        dquote +:+ Json.escape url +:+ dquote +:+ "," +:+ nl +:+
      "  " +:+ dquote +:+ "title" +:+ dquote +:+ ": " +:+
        dquote +:+ Json.escape (title content) +:+ dquote +:+ "," +:+ nl +:+
      "  " +:+ dquote +:+ "text" +:+ dquote +:+ ": " +:+
        dquote +:+ Json.escape t +:+ dquote +:+ "," +:+ nl +:+
      "  " +:+ dquote +:+ "html" +:+ dquote +:+ ": " +:+
        dquote +:+ Json.escape (html content) +:+ dquote +:+ nl +:+
      "}" /\
    Json.loads (page_json url content)
      = Some [("url", url); ("title", title content); ("text", t);
              ("html", html content)] /\
    (forall c : ascii,
       32 <= nat_of_ascii c -> nat_of_ascii c <> 34 -> nat_of_ascii c <> 92 ->
       Json.escape_char c = String c EmptyString).
Proof.
  intros Hin Hret. split; [done|]. split.
  { intros u Hu Heq. by apply (NoDup_map_eq _ _ _ _ output_files_distinct). }
  rewrite scrape_page_run in Hret |- *. cbn [fst snd] in Hret |- *.
  rewrite final_file_of_url by done. cbn [world_after fs].
  destruct (outcome env url (output_file_of url)) as [m|m|m|r c m|r c n m|r c];
    cbn in Hret; simplify_eq.
  exists c. split_and!; try done.
  - apply page_json_layout.
  - apply JsonFacts.loads_dumps.
  - apply JsonFacts.escape_char_plain.
Qed.

Lemma C7_json_file_witness :
  Sample.MONITORS ∈ DOCS_URLS /\
  fst (scrape_page Sample.all_ok Sample.MONITORS (output_file_of Sample.MONITORS)
         Sample.empty_world) = Ok (Some "Monitors API") /\
  output_file_of Sample.MONITORS = "docs_scraped/monitors.json".
Proof.
  assert (Sample.MONITORS ∈ DOCS_URLS) as Hin
    by (by apply (bool_decide_unpack _); vm_compute).
  assert (fst (scrape_page Sample.all_ok Sample.MONITORS
                 (output_file_of Sample.MONITORS) Sample.empty_world)
          = Ok (Some "Monitors API")) as Hret by (by vm_compute).
  split_and!; [done..|].
  exact (proj1 (C7_json_file Sample.all_ok Sample.empty_world Sample.MONITORS
                  _ Hin Hret)).
Defined.

(** *** C5: the extraction *)

Lemma or_else_some {A : Type} (a b : option A) (x : A) :
  Dom.or_else a b = Some x <-> a = Some x \/ (a = None /\ b = Some x).
Proof. destruct a; cbn; intuition congruence. Qed.

Lemma or_else_none {A : Type} (a b : option A) :
  Dom.or_else a b = None <-> a = None /\ b = None.
Proof. destruct a; cbn; intuition congruence. Qed.

(** Without a match and without a body there is no container. *)
Lemma select_container_none (root : Dom.Node) :
  select_container root = None <->
    Dom.no_match [Dom.TypeSel "main"] root /\
    Dom.no_match [Dom.TypeSel "article"] root /\
    Dom.no_match [Dom.ClassSel "documentation"] root /\
    Dom.no_match [Dom.ClassSel "notion-page-content"] root /\
    Dom.document_body root = None.
Proof.
  unfold select_container, Dom.no_match.
  rewrite !or_else_none, !DomFacts.querySelector_none. tauto.
Qed.

(** The container is chosen in the order [main], [article],
    [.documentation], [.notion-page-content], [document.body]; each query
    answers with its first match in tree order. *)
Lemma select_container_priority (root : Dom.Node) (pc : Dom.Path * Dom.Node) :
  select_container root = Some pc <->
    Dom.first_in_tree_order [Dom.TypeSel "main"] root pc \/
    (Dom.no_match [Dom.TypeSel "main"] root /\
     Dom.first_in_tree_order [Dom.TypeSel "article"] root pc) \/
    (Dom.no_match [Dom.TypeSel "main"] root /\
     Dom.no_match [Dom.TypeSel "article"] root /\
     Dom.first_in_tree_order [Dom.ClassSel "documentation"] root pc) \/
    (Dom.no_match [Dom.TypeSel "main"] root /\
     Dom.no_match [Dom.TypeSel "article"] root /\
     Dom.no_match [Dom.ClassSel "documentation"] root /\
     Dom.first_in_tree_order [Dom.ClassSel "notion-page-content"] root pc) \/
    (Dom.no_match [Dom.TypeSel "main"] root /\
     Dom.no_match [Dom.TypeSel "article"] root /\
     Dom.no_match [Dom.ClassSel "documentation"] root /\
     Dom.no_match [Dom.ClassSel "notion-page-content"] root /\
     Dom.document_body root = Some pc).
Proof.
  unfold select_container, Dom.first_in_tree_order, Dom.no_match.
  rewrite !or_else_some.
  rewrite !DomFacts.querySelector_first, !DomFacts.querySelector_none.
  tauto.
Qed.

(** C5, as stated, fails: the script and style elements are removed from
    the live container, not from a copy.  On a page whose [main] holds a
    script, the document of the page after [scrape_page] is no longer the
    document that was loaded: the script is gone from it. *)
Lemma C5_counterexample :
  document_of Sample.all_ok Sample.MONITORS = Sample.doc /\
  page (snd (scrape_page Sample.all_ok Sample.MONITORS
               (output_file_of Sample.MONITORS) Sample.empty_world))
    = Some (mkPage Sample.MONITORS Sample.doc_stripped) /\
  Sample.doc_stripped <> Sample.doc /\
  length (Dom.document_querySelectorAll SCRIPT_STYLE Sample.doc) = 1 /\
  length (Dom.document_querySelectorAll SCRIPT_STYLE Sample.doc_stripped) = 0.
Proof. split_and!; by vm_compute. Qed.

(** C5, amended: the extraction selects the first matching container in the
    order [main], [article], [.documentation], [.notion-page-content], each
    in tree order, and falls back to the document body; when there is no
    match and no body, the script throws.  The script and style elements
    below the container are removed from the live container, so the
    document of the page is changed: afterwards the page holds the document
    with the stripped container in place.  The extracted data is the
    rendered text and the inner markup of the stripped container, which has
    no script or style element left below it, and the title of the
    document. *)
Theorem C5_extraction (env : Env) (w : World) (url : string) (root : Dom.Node) :
  page w = Some (mkPage url root) ->
  evaluate_fault env url = None ->
  (forall pc,
     select_container root = Some pc <->
       Dom.first_in_tree_order [Dom.TypeSel "main"] root pc \/
       (Dom.no_match [Dom.TypeSel "main"] root /\
        Dom.first_in_tree_order [Dom.TypeSel "article"] root pc) \/
       (Dom.no_match [Dom.TypeSel "main"] root /\
        Dom.no_match [Dom.TypeSel "article"] root /\
        Dom.first_in_tree_order [Dom.ClassSel "documentation"] root pc) \/
       (Dom.no_match [Dom.TypeSel "main"] root /\
        Dom.no_match [Dom.TypeSel "article"] root /\
        Dom.no_match [Dom.ClassSel "documentation"] root /\
        Dom.first_in_tree_order [Dom.ClassSel "notion-page-content"] root pc) \/
       (Dom.no_match [Dom.TypeSel "main"] root /\
        Dom.no_match [Dom.TypeSel "article"] root /\
        Dom.no_match [Dom.ClassSel "documentation"] root /\
        Dom.no_match [Dom.ClassSel "notion-page-content"] root /\
        Dom.document_body root = Some pc)) /\
  (Dom.no_match [Dom.TypeSel "main"] root ->
   Dom.no_match [Dom.TypeSel "article"] root ->
   Dom.no_match [Dom.ClassSel "documentation"] root ->
   Dom.no_match [Dom.ClassSel "notion-page-content"] root ->
   Dom.document_body root = None ->
   fst (page_evaluate_extract env w) = Raised NULL_ERROR) /\
  (forall p c,
     select_container root = Some (p, c) ->
     let main := Dom.remove_matching SCRIPT_STYLE c in
     let root' := Dom.update_at p (Dom.remove_matching SCRIPT_STYLE) root in
     Dom.node_at p root = Some c /\
     fst (page_evaluate_extract env w)
       = Ok (mkContent (innerText env main) (innerHTML env main)
                       (documentTitle env root')) /\
     page (snd (page_evaluate_extract env w)) = Some (mkPage url root') /\
     Dom.node_at p root' = Some main /\
     Dom.element_querySelectorAll SCRIPT_STYLE main = []).
Proof.
  intros Hpage Hfault. split_and!.
  - apply select_container_priority.
  - intros H1 H2 H3 H4 H5.
    assert (select_container root = None) as Hnone
      by (by apply select_container_none).
    unfold page_evaluate_extract, bind, record, modify, get_page, check, raise.
    cbn. rewrite Hpage. cbn. rewrite Hfault, extract_run, Hnone. done.
  - intros p c Hsel main root'.
    pose proof (select_container_node_at _ _ _ Hsel) as Hat.
    unfold page_evaluate_extract, bind, record, modify, get_page, check, raise,
      set_page, ret.
    cbn. rewrite Hpage. cbn. rewrite Hfault, extract_run, Hsel. cbn.
    split_and!; try done.
    + by apply DomFacts.node_at_update_at.
    + apply DomFacts.querySelectorAll_after_remove.
Qed.

Lemma C5_extraction_witness :
  page Sample.world_on_doc = Some (mkPage Sample.MONITORS Sample.doc) /\
  evaluate_fault Sample.all_ok Sample.MONITORS = None /\
  select_container Sample.doc = Some ([1; 0], Sample.main_with_script) /\
  fst (page_evaluate_extract Sample.all_ok Sample.world_on_doc)
    = Ok (mkContent "Monitors API" "Monitors API" "Hyperping API").
Proof.
  assert (page Sample.world_on_doc = Some (mkPage Sample.MONITORS Sample.doc))
    as Hpage by done.
  assert (evaluate_fault Sample.all_ok Sample.MONITORS = None) as Hfault by done.
  assert (select_container Sample.doc = Some ([1; 0], Sample.main_with_script))
    as Hsel by (by vm_compute).
  split_and!; [done..|].
  exact (proj1 (proj2 (proj2 (proj2 (C5_extraction Sample.all_ok Sample.world_on_doc
                                       _ _ Hpage Hfault)) _ _ Hsel))).
Defined.

(** ** Further properties of the code *)

(** *** The page name and the output path *)

Section PageName.

Variable sep : ascii.

Lemma split_not_empty (s : string) : split sep s <> [].
Proof.
  destruct s as [|c s]; cbn [split]; [done|].
  destruct (Ascii.eqb c sep); [done|]. by destruct (split sep s).
Qed.

Lemma split_no_separator (s : string) :
  contains_char sep s = false -> split sep s = [s].
Proof.
  induction s as [|c s IH]; cbn [split contains_char]; [done|].
  destruct (Ascii.eqb c sep); [done|]. cbn [orb]. intros H. by rewrite (IH H).
Qed.

Lemma split_fields_clean (s : string) :
  Forall (fun field => contains_char sep field = false) (split sep s).
Proof.
  induction s as [|c s IH]; cbn [split]; [by constructor|].
  destruct (Ascii.eqb c sep) eqn:Hc; [by constructor|].
  destruct (split sep s) as [|field fields].
  - constructor; [|done]. cbn [contains_char]. by rewrite Hc.
  - apply Forall_cons in IH as [Hfield Hfields].
    constructor; [|done]. cbn [contains_char]. by rewrite Hc.
Qed.

Lemma join_split (s : string) : str_join (String sep EmptyString) (split sep s) = s.
Proof.
  induction s as [|c s IH]; cbn [split]; [done|].
  destruct (Ascii.eqb_spec c sep) as [->|Hne].
  - pose proof (split_not_empty s) as Hs.
    destruct (split sep s) as [|field fields]; [done|].
    change (str_join (String sep EmptyString) (EmptyString :: field :: fields))
      with (String sep (str_join (String sep EmptyString) (field :: fields))).
    by rewrite IH.
  - pose proof (split_not_empty s) as Hs.
    destruct (split sep s) as [|field fields]; [done|].
    destruct fields as [|field' fields]; cbn [str_join] in *; [by rewrite IH|].
    by rewrite <- IH.
Qed.

Lemma str_join_snoc (l : list string) (x : string) :
  l <> [] ->
  str_join (String sep EmptyString) (l ++ [x])
  = str_join (String sep EmptyString) l +:+ String sep EmptyString +:+ x.
Proof.
  induction l as [|y l IH]; [done|]. intros _.
  destruct l as [|z l]; [done|].
  change (str_join (String sep EmptyString) ((y :: z :: l) ++ [x]))
    with (y +:+ String sep EmptyString +:+
          str_join (String sep EmptyString) ((z :: l) ++ [x])).
  rewrite IH by done.
  change (str_join (String sep EmptyString) (y :: z :: l))
    with (y +:+ String sep EmptyString +:+ str_join (String sep EmptyString) (z :: l)).
  by rewrite !JsonFacts.append_assoc.
Qed.

(** A string is its last field, or something, the separator and its last
    field. *)
Lemma last_field (s : string) :
  contains_char sep (last_item (split sep s)) = false /\
  (s = last_item (split sep s) \/
   exists stem, s = stem +:+ String sep EmptyString +:+ last_item (split sep s)).
Proof.
  pose proof (split_fields_clean s) as Hclean.
  pose proof (join_split s) as Hjoin.
  pose proof (split_not_empty s) as Hne.
  destruct (exists_last Hne) as (init & x & Heq).
  rewrite Heq in *. unfold last_item. rewrite List.last_last.
  split.
  - apply Forall_app in Hclean as [_ Hx]. by apply Forall_cons in Hx as [Hx _].
  - destruct init as [|y init]; [by left|]. right.
    rewrite str_join_snoc in Hjoin by done. eexists. by rewrite Hjoin.
Qed.

End PageName.

Lemma contains_char_append (c : ascii) (a b : string) :
  contains_char c (a +:+ b) = contains_char c a || contains_char c b.
Proof.
  induction a as [|x a IH]; [done|].
  rewrite JsonFacts.append_cons. cbn [contains_char]. by rewrite IH, orb_assoc.
Qed.

(** X1: the output file of a URL, whatever the URL, lies directly in
    [docs_scraped/]: split at ["/"], its path has the two components
    [docs_scraped] and the page name followed by [.json].  The page name has
    no ["/"], and the URL is the page name or ends with ["/"] and the page
    name. *)
Theorem X1_output_file_in_directory (url : string) :
  split "/" (output_file_of url) = ["docs_scraped"; page_name_of url +:+ ".json"] /\
  contains_char "/" (page_name_of url) = false /\
  (url = page_name_of url \/ exists stem, url = stem +:+ "/" +:+ page_name_of url).
Proof.
  destruct (last_field "/" url) as [Hclean Hurl]. fold (page_name_of url) in *.
  split_and!; [|done|done].
  unfold output_file_of.
  assert (split "/" (page_name_of url +:+ ".json") = [page_name_of url +:+ ".json"])
    as Hname.
  { apply split_no_separator. by rewrite contains_char_append, Hclean. }
  assert (forall rest, split "/" ("docs_scraped/" +:+ rest)
                       = "docs_scraped" :: split "/" rest) as Hdir
    by reflexivity.
  by rewrite Hdir, Hname.
Qed.

(** X2: [sep.join(s.split(sep)) == s]: splitting a string at a separator
    and joining the fields with the separator gives the string back; the
    list of fields is never empty and no field contains the separator. *)
Theorem X2_split_join (sep : ascii) (s : string) :
  str_join (String sep EmptyString) (split sep s) = s /\
  split sep s <> [] /\
  Forall (fun field => contains_char sep field = false) (split sep s).
Proof.
  split_and!; [apply join_split|apply split_not_empty|apply split_fields_clean].
Qed.

(** *** The loop on other lists *)

Section LoopComposition.

Variable env : Env.

Lemma loop_world_app (l1 l2 : list string) (w : World) :
  loop_world env (l1 ++ l2) w = loop_world env l2 (loop_world env l1 w).
Proof.
  revert w. induction l1 as [|u l1 IH]; intros w; [done|].
  cbn [app loop_world]. apply IH.
Qed.

Lemma loop_results_app (l1 l2 : list string) (results : gmap string string) :
  loop_results env (l1 ++ l2) results
  = loop_results env l2 (loop_results env l1 results).
Proof.
  revert results. induction l1 as [|u l1 IH]; intros results; [done|].
  cbn [app loop_results]. apply IH.
Qed.

End LoopComposition.

Lemma append_cancel_r (a b c : string) : a +:+ c = b +:+ c -> a = b.
Proof.
  revert b. induction a as [|x a IH]; intros [|y b] H.
  - done.
  - apply (f_equal String.length) in H.
    rewrite JsonFacts.append_cons, !JsonFacts.length_append in H.
    cbn [String.length] in H. rewrite ?JsonFacts.length_append in H. lia.
  - apply (f_equal String.length) in H.
    rewrite JsonFacts.append_cons, !JsonFacts.length_append in H.
    cbn [String.length] in H. rewrite ?JsonFacts.length_append in H. lia.
  - rewrite !JsonFacts.append_cons in H. injection H as -> H.
    by rewrite (IH _ H).
Qed.

(** Two URLs share their output file exactly when they share their page
    name. *)
Lemma output_file_eq (u v : string) :
  output_file_of u = output_file_of v <-> page_name_of u = page_name_of v.
Proof.
  unfold output_file_of. split; [|by intros ->].
  intros H. apply (inj (String.append "docs_scraped/")) in H.
  by apply append_cancel_r in H.
Qed.

(** X3: were the list to hold several URLs with the same last path segment,
    they would share one output file and one entry of the results: whatever
    came before it in the list, a URL that is saved leaves its own JSON in
    the file and, when its text is not empty, its own text in the results,
    as long as no later URL of the list has the same page name.  An earlier
    URL of that name is overwritten without notice. *)
Theorem X3_last_saved_wins (env : Env) (before after : list string) (url : string)
    (results : gmap string string) (w : World)
    (root' : Dom.Node) (content : Content) :
  outcome env url (output_file_of url) = Saved root' content ->
  (forall v, v ∈ after -> page_name_of v <> page_name_of url) ->
  exists results' w',
    scrape_all env (before ++ url :: after) results w = (Ok results', w') /\
    fs w' !! output_file_of url = Some (page_json url content) /\
    (text content <> EmptyString ->
     results' !! page_name_of url = Some (text content)).
Proof.
  intros Hsaved Hafter. eexists _, _. split; [apply scrape_all_run|].
  rewrite loop_world_app, loop_results_app. cbn [loop_world loop_results].
  split.
  - rewrite loop_fs_other.
    + cbn [world_after fs]. by rewrite fs_after_lookup, Hsaved.
    + intros Hin. apply list_elem_of_fmap in Hin as (v & Heq & Hv).
      apply (Hafter v Hv). symmetry. by apply output_file_eq.
  - intros Htext. rewrite loop_results_other.
    + unfold results_after, recorded. rewrite Hsaved. cbn.
      apply String.eqb_neq in Htext. rewrite Htext. cbn.
      by rewrite lookup_insert_eq.
    + intros Hin. apply list_elem_of_fmap in Hin as (v & Heq & Hv).
      by apply (Hafter v Hv).
Qed.

Lemma X3_last_saved_wins_witness :
  page_name_of "https://hyperping.com/docs/api/v2/monitors"
    = page_name_of Sample.MONITORS /\
  exists results' w',
    scrape_all Sample.all_ok
      ([Sample.MONITORS] ++ ["https://hyperping.com/docs/api/v2/monitors"])
      ∅ Sample.empty_world = (Ok results', w') /\
    fs w' !! "docs_scraped/monitors.json"
      = Some (page_json "https://hyperping.com/docs/api/v2/monitors"
                (mkContent "Monitors API" "Monitors API" "Hyperping API")).
Proof.
  split; [done|].
  assert (outcome Sample.all_ok "https://hyperping.com/docs/api/v2/monitors"
            (output_file_of "https://hyperping.com/docs/api/v2/monitors")
          = Saved Sample.doc_stripped
              (mkContent "Monitors API" "Monitors API" "Hyperping API")) as Hsaved
    by (by vm_compute).
  assert (forall v : string,
            v ∈ @nil string ->
            page_name_of v <> page_name_of "https://hyperping.com/docs/api/v2/monitors")
    as Hafter by (intros v Hv; by apply elem_of_nil in Hv).
  destruct (X3_last_saved_wins Sample.all_ok [Sample.MONITORS] []
              "https://hyperping.com/docs/api/v2/monitors" ∅ Sample.empty_world
              _ _ Hsaved Hafter) as (results' & w' & Hrun & Hfile & _).
  by exists results', w'.
Defined.

(** *** The trace of a run *)

Section RunTrace.

Variable env : Env.

Lemma gotos_of (url : string) (o : Outcome) :
  List.filter is_goto (calls_of url o) = [Goto url].
Proof. by destruct o. Qed.

Lemma gotos_of_notion (o : NotionOutcome) :
  List.filter is_goto (notion_calls o) = [Goto NOTION_URL].
Proof. by destruct o. Qed.

Lemma gotos_of_loop (urls : list string) :
  List.filter is_goto
    (concat (map (fun u => calls_of u (outcome env u (output_file_of u))) urls))
  = map Goto urls.
Proof.
  induction urls as [|u urls IH]; [done|].
  cbn [map concat]. by rewrite List.filter_app, gotos_of, IH.
Qed.

Lemma final_calls (w : World) :
  calls (final_world env w) =
    calls w ++ [Launch; NewContext USER_AGENT; NewPage] ++
    (concat (map (fun u => calls_of u (outcome env u (output_file_of u))) DOCS_URLS) ++
     notion_calls (notion_outcome env)) ++
    match notion_failure (notion_outcome env) with
    | Some _ => []
    | None => [Close]
    end.
Proof.
  rewrite final_world_run. cbn zeta.
  destruct (notion_failure (notion_outcome env)); cbn [calls];
    rewrite before_close_calls, <- ?app_assoc; [by rewrite app_nil_r|done].
Qed.

Lemma final_dirs (w : World) : dirs (final_world env w) = dirs (prelude w).
Proof.
  rewrite final_world_run. cbn zeta.
  destruct (notion_failure (notion_outcome env)); cbn [dirs];
    unfold before_close, notion_world_after; cbn [dirs]; apply loop_dirs.
Qed.

End RunTrace.

(** *** The files of a run *)

Section RunFiles.

Variable env : Env.

Lemma final_file_other (w : World) (path : string) :
  path ∉ map output_file_of DOCS_URLS -> path <> NOTION_FILE ->
  fs (final_world env w) !! path = fs w !! path.
Proof.
  intros Hout Hnotion. rewrite final_fs.
  rewrite notion_fs_after_other by done. by rewrite loop_fs_other.
Qed.

Lemma file_after_keeps (url output_file : string) (o : Outcome) (old : option string) :
  is_Some old -> is_Some (file_after url output_file o old).
Proof. intros H. destruct o; cbn; by eauto. Qed.

Lemma notion_file_after_keeps (o : NotionOutcome) (old : option string) :
  is_Some old -> is_Some (notion_file_after o old).
Proof. intros H. destruct o; cbn; by eauto. Qed.

Lemma file_after_twice (url output_file : string) (o : Outcome) (old : option string) :
  file_after url output_file o (file_after url output_file o old)
  = file_after url output_file o old.
Proof. by destruct o. Qed.

Lemma notion_file_after_twice (o : NotionOutcome) (old : option string) :
  notion_file_after o (notion_file_after o old) = notion_file_after o old.
Proof. by destruct o. Qed.

End RunFiles.

(** X5: a run writes to nothing but the eight output files and the Notion
    file, and it deletes nothing: every other path holds after the run what
    it held before, and every file that existed before the run still
    exists. *)
Theorem X5_only_its_files (env : Env) (w : World) (path : string) :
  (path ∉ map output_file_of DOCS_URLS -> path <> NOTION_FILE ->
   fs (final_world env w) !! path = fs w !! path) /\
  (is_Some (fs w !! path) -> is_Some (fs (final_world env w) !! path)).
Proof.
  split; [apply final_file_other|].
  intros Hold.
  destruct (decide (path ∈ map output_file_of DOCS_URLS)) as [Hin|Hout].
  - apply list_elem_of_fmap in Hin as (url & -> & Hurl).
    rewrite final_file_of_url by done. by apply file_after_keeps.
  - destruct (decide (path = NOTION_FILE)) as [->|Hne].
    + rewrite final_notion_file. by apply notion_file_after_keeps.
    + by rewrite final_file_other.
Qed.

Lemma X5_only_its_files_witness :
  ("README.md" ∉ map output_file_of DOCS_URLS) /\
  "README.md" <> NOTION_FILE /\
  fs (final_world Sample.mixed Sample.stale_world) !! "README.md"
    = fs Sample.stale_world !! "README.md".
Proof.
  assert ("README.md" ∉ map output_file_of DOCS_URLS) as Hout
    by (by apply (bool_decide_unpack _); vm_compute).
  assert ("README.md" <> NOTION_FILE) as Hne by done.
  split_and!; [done..|].
  exact (proj1 (X5_only_its_files Sample.mixed Sample.stale_world "README.md")
           Hout Hne).
Defined.


(** *** The Notion page, when it works *)




(** *** The progress lines *)

Section Progress.

Variable env : Env.

Lemma scraping_lines_of (url output_file : string) (o : Outcome) :
  List.filter is_scraping_line (lines_of url output_file o) = ["Scraping: " +:+ url].
Proof. unfold lines_of. by destruct (failure o). Qed.

Lemma saved_lines_of (url output_file : string) (o : Outcome) :
  List.filter is_saved_line (lines_of url output_file o)
  = match failure o with
    | Some _ => []
    | None => ["✅ Saved to " +:+ output_file]
    end.
Proof. unfold lines_of. by destruct (failure o). Qed.

Lemma scraping_lines_loop (urls : list string) :
  List.filter is_scraping_line
    (concat (map (fun u => lines_of u (output_file_of u)
                             (outcome env u (output_file_of u))) urls))
  = map (fun u => "Scraping: " +:+ u) urls.
Proof.
  induction urls as [|u urls IH]; [done|].
  cbn [map concat]. by rewrite List.filter_app, scraping_lines_of, IH.
Qed.

Lemma failure_returned (o : Outcome) : failure o = None <-> is_Some (returned o).
Proof. destruct o; cbn; split; try done; by intros [? ?]. Qed.

Lemma saved_lines_loop (urls : list string) :
  List.filter is_saved_line
    (concat (map (fun u => lines_of u (output_file_of u)
                             (outcome env u (output_file_of u))) urls))
  = map (fun u => "✅ Saved to " +:+ output_file_of u)
        (List.filter (is_saved env) urls).
Proof.
  induction urls as [|u urls IH]; [done|].
  cbn [map concat List.filter]. rewrite List.filter_app, saved_lines_of, IH.
  unfold is_saved at 2.
  destruct (failure (outcome env u (output_file_of u))) eqn:Hf.
  - rewrite bool_decide_eq_false_2; [done|].
    intros H. apply failure_returned in H. congruence.
  - rewrite bool_decide_eq_true_2; [done|]. by apply failure_returned.
Qed.

Lemma error_lines_loop (urls : list string) :
  length (List.filter is_error_line
            (concat (map (fun u => lines_of u (output_file_of u)
                                     (outcome env u (output_file_of u))) urls)))
  + length (List.filter (is_saved env) urls) = length urls.
Proof.
  induction urls as [|u urls IH]; [done|].
  cbn [map concat List.filter]. rewrite List.filter_app, length_app, error_lines_of.
  unfold is_saved at 1.
  destruct (failure (outcome env u (output_file_of u))) eqn:Hf.
  - rewrite bool_decide_eq_false_2.
    + cbn [length]. lia.
    + intros H. apply failure_returned in H. congruence.
  - rewrite bool_decide_eq_true_2 by (by apply failure_returned).
    cbn [length]. lia.
Qed.

End Progress.


(** *** The results mapping *)

Lemma recorded_is_saved (env : Env) (u : string) :
  is_recorded env u = true -> is_saved env u = true.
Proof.
  unfold is_recorded, is_saved, recorded. intros H.
  apply bool_decide_eq_true in H. apply bool_decide_eq_true.
  destruct (returned _); [by eexists|by destruct H].
Qed.

Lemma recorded_le_saved (env : Env) (l : list string) :
  length (List.filter (is_recorded env) l) <= length (List.filter (is_saved env) l).
Proof.
  induction l as [|u l IH]; [done|]. cbn [List.filter].
  destruct (is_recorded env u) eqn:Hr.
  - rewrite (recorded_is_saved _ _ Hr). cbn [length]. lia.
  - destruct (is_saved env u); cbn [length]; lia.
Qed.

(** X8: every entry of the results mapping the loop builds belongs to a
    fixed-list URL: its key is the page name of the URL, its value is not
    empty, and it is the text stored in the JSON file of that URL, which
    exists after the run.  The mapping never has more entries than there
    are URLs for which [scrape_page] returned a text. *)
Theorem X8_results_entries (env : Env) (w w0 : World)
    (results : gmap string string) (key t : string) :
  fst (scrape_all env DOCS_URLS ∅ w0) = Ok results ->
  results !! key = Some t ->
  t <> EmptyString /\
  (exists url content,
     url ∈ DOCS_URLS /\ key = page_name_of url /\ text content = t /\
     fs (final_world env w) !! output_file_of url = Some (page_json url content)) /\
  size results <= length (List.filter (is_saved env) DOCS_URLS).
Proof.
  intros Hrun Hkey.
  assert (results = loop_results env DOCS_URLS ∅) as ->.
  { rewrite scrape_all_run in Hrun. cbn [fst] in Hrun. congruence. }
  clear Hrun.
  assert (exists url, url ∈ DOCS_URLS /\ key = page_name_of url) as (url & Hin & ->).
  { destruct (decide (key ∈ map page_name_of DOCS_URLS)) as [Hk|Hk].
    - apply list_elem_of_fmap in Hk as (url & -> & Hurl). by exists url.
    - rewrite loop_results_other in Hkey by done. by rewrite lookup_empty in Hkey. }
  rewrite run_results_lookup in Hkey by done.
  assert (is_Some (recorded (outcome env url (output_file_of url)))) as Hrec
    by (by eexists).
  apply recorded_iff in Hrec as (r & c & Ho & Htext).
  rewrite Ho in Hkey. unfold recorded in Hkey. cbn in Hkey.
  destruct (String.eqb (text c) EmptyString); cbn in Hkey; [done|].
  injection Hkey as <-. split_and!.
  - done.
  - exists url, c. split_and!; try done.
    rewrite final_file_of_url by done. by rewrite Ho.
  - rewrite run_results_size. apply recorded_le_saved.
Qed.

Lemma X8_results_entries_witness :
  fst (scrape_all Sample.all_ok DOCS_URLS ∅ Sample.empty_world)
    = Ok (loop_results Sample.all_ok DOCS_URLS ∅) /\
  loop_results Sample.all_ok DOCS_URLS ∅ !! "monitors" = Some "Monitors API" /\
  "Monitors API" <> EmptyString.
Proof.
  assert (fst (scrape_all Sample.all_ok DOCS_URLS ∅ Sample.empty_world)
          = Ok (loop_results Sample.all_ok DOCS_URLS ∅)) as Hrun
    by (by rewrite scrape_all_run).
  assert (loop_results Sample.all_ok DOCS_URLS ∅ !! "monitors" = Some "Monitors API")
    as Hkey by (by vm_compute).
  split_and!; [done..|].
  exact (proj1 (X8_results_entries Sample.all_ok Sample.empty_world
                  Sample.empty_world _ _ _ Hrun Hkey)).
Defined.

(** *** The document after the extraction *)

Lemma update_nth_other {A : Type} (i j : nat) (f : A -> A) (l : list A) :
  i <> j -> nth_error (Dom.update_nth i f l) j = nth_error l j.
Proof.
  revert i j. induction l as [|x l IH]; intros [|i] [|j] Hne; cbn; try done.
  apply IH. lia.
Qed.

Lemma update_nth_same {A : Type} (i : nat) (f : A -> A) (l : list A) :
  nth_error (Dom.update_nth i f l) i = f <$> nth_error l i.
Proof.
  revert i. induction l as [|x l IH]; intros [|i]; cbn; done.
Qed.

(** An update at one position is not seen at a position that diverges
    from it. *)
Lemma node_at_update_at_diverge (p q : Dom.Path) (f : Dom.Node -> Dom.Node)
    (n : Dom.Node) :
  diverge p q = true -> Dom.node_at q (Dom.update_at p f n) = Dom.node_at q n.
Proof.
  revert q n. induction p as [|i p IH]; intros [|j q] n Hd; try done.
  cbn [diverge] in Hd. cbn [Dom.update_at].
  destruct n as [data|tag classes children]; [done|].
  cbn [Dom.node_at Dom.children_of].
  destruct (Nat.eqb_spec i j) as [->|Hne].
  - rewrite update_nth_same.
    destruct (nth_error children j) as [c|]; cbn; [by apply IH|done].
  - by rewrite update_nth_other.
Qed.

Lemma prune_idempotent (sel : Dom.Selector) (rm : Dom.Node -> Dom.Node)
    (l : list Dom.Node) :
  Forall (fun c => rm (rm c) = rm c) l ->
  (forall c, Dom.matches sel (rm c) = Dom.matches sel c) ->
  Dom.prune sel rm (Dom.prune sel rm l) = Dom.prune sel rm l.
Proof.
  intros Hl Hm. induction Hl as [|c l Hc Hl IH]; [done|].
  cbn [Dom.prune]. destruct (Dom.matches sel c) eqn:Hmc; [done|].
  cbn [Dom.prune]. by rewrite Hm, Hmc, Hc, IH.
Qed.

Lemma remove_matching_idempotent (sel : Dom.Selector) (n : Dom.Node) :
  Dom.remove_matching sel (Dom.remove_matching sel n) = Dom.remove_matching sel n.
Proof.
  induction n as [data|tag classes children IH] using DomFacts.node_induction;
    [done|].
  cbn [Dom.remove_matching]. f_equal.
  apply prune_idempotent; [done|].
  intros c. apply DomFacts.matches_remove_matching.
Qed.

(** X9: the extraction changes the document only inside the container:
    after [page.evaluate], every position of the page's document that
    diverges from the container's position holds the node it held before,
    so a script or a style outside the container stays; and the container
    keeps its own name and classes. *)
Theorem X9_outside_container_unchanged (env : Env) (w : World) (url : string)
    (root : Dom.Node) (p : Dom.Path) (c : Dom.Node) :
  page w = Some (mkPage url root) ->
  evaluate_fault env url = None ->
  select_container root = Some (p, c) ->
  exists root' main,
    page (snd (page_evaluate_extract env w)) = Some (mkPage url root') /\
    Dom.node_at p root' = Some main /\
    (forall sel, Dom.matches sel main = Dom.matches sel c) /\
    (forall q, diverge p q = true -> Dom.node_at q root' = Dom.node_at q root).
Proof.
  intros Hpage Hfault Hsel.
  pose proof (select_container_node_at _ _ _ Hsel) as Hat.
  exists (Dom.update_at p (Dom.remove_matching SCRIPT_STYLE) root),
         (Dom.remove_matching SCRIPT_STYLE c).
  split_and!.
  - unfold page_evaluate_extract, bind, record, modify, get_page, check, raise,
      set_page, ret.
    cbn. rewrite Hpage. cbn. by rewrite Hfault, extract_run, Hsel.
  - by apply DomFacts.node_at_update_at.
  - intros sel. apply DomFacts.matches_remove_matching.
  - intros q Hq. by apply node_at_update_at_diverge.
Qed.

Lemma X9_outside_container_unchanged_witness :
  page Sample.world_on_doc = Some (mkPage Sample.MONITORS Sample.doc) /\
  evaluate_fault Sample.all_ok Sample.MONITORS = None /\
  select_container Sample.doc = Some ([1; 0], Sample.main_with_script) /\
  exists root' main,
    page (snd (page_evaluate_extract Sample.all_ok Sample.world_on_doc))
      = Some (mkPage Sample.MONITORS root') /\
    Dom.node_at [1; 0] root' = Some main.
Proof.
  assert (page Sample.world_on_doc = Some (mkPage Sample.MONITORS Sample.doc))
    as Hpage by done.
  assert (evaluate_fault Sample.all_ok Sample.MONITORS = None) as Hfault by done.
  assert (select_container Sample.doc = Some ([1; 0], Sample.main_with_script))
    as Hsel by (by vm_compute).
  split_and!; [done..|].
  destruct (X9_outside_container_unchanged Sample.all_ok Sample.world_on_doc
              _ _ _ _ Hpage Hfault Hsel) as (root' & main & H1 & H2 & _).
  by exists root', main.
Defined.

(** X10: removing the matching descendants of a node a second time changes
    nothing; the node keeps its own name and classes, and a text node is
    left as it is. *)
Theorem X10_strip_idempotent (sel : Dom.Selector) (n : Dom.Node) :
  Dom.remove_matching sel (Dom.remove_matching sel n) = Dom.remove_matching sel n /\
  (forall sel', Dom.matches sel' (Dom.remove_matching sel n) = Dom.matches sel' n) /\
  Dom.element_querySelectorAll sel (Dom.remove_matching sel n) = [] /\
  (forall data, n = Dom.Text data -> Dom.remove_matching sel n = n).
Proof.
  split_and!.
  - apply remove_matching_idempotent.
  - intros sel'. apply DomFacts.matches_remove_matching.
  - apply DomFacts.querySelectorAll_after_remove.
  - by intros data ->.
Qed.

(** *** The lines of a JSON file *)

Lemma count_if_append (f : ascii -> bool) (a b : string) :
  count_if f (a +:+ b) = count_if f a + count_if f b.
Proof.
  induction a as [|x a IH]; [done|].
  rewrite JsonFacts.append_cons. cbn [count_if]. rewrite IH. lia.
Qed.


(** *** The selector wait and the fallback to the body *)

Lemma matches_content (n : Dom.Node) :
  Dom.matches CONTENT_SELECTORS n
  = Dom.matches [Dom.TypeSel "main"] n || Dom.matches [Dom.TypeSel "article"] n
    || Dom.matches [Dom.ClassSel "documentation"] n
    || Dom.matches [Dom.ClassSel "notion-page-content"] n.
Proof.
  unfold Dom.matches, CONTENT_SELECTORS. cbn [existsb].
  by rewrite !orb_false_r, !orb_assoc.
Qed.

Lemma querySelector_matches (sel : Dom.Selector) (root : Dom.Node)
    (p : Dom.Path) (c : Dom.Node) :
  Dom.document_querySelector sel root = Some (p, c) -> Dom.matches sel c = true.
Proof.
  intros H. by apply DomFacts.querySelector_first in H as (_ & _ & _ & H & _).
Qed.

(** X11: when some element of the document matches the selector list the
    script waits for, the extraction does not fall back to the body and
    does not throw: the container it selects matches that list.  When no
    element matches, the container is [document.body], whatever it is. *)
Theorem X11_fallback_only_without_match (env : Env) (root : Dom.Node) :
  (Exists (fun pn => Dom.matches CONTENT_SELECTORS (snd pn) = true) (Dom.subtree root) ->
   exists p c root' content,
     select_container root = Some (p, c) /\
     Dom.matches CONTENT_SELECTORS c = true /\
     extract env root = Ok (root', content)) /\
  (Forall (fun pn => Dom.matches CONTENT_SELECTORS (snd pn) = false) (Dom.subtree root) ->
   select_container root = Dom.document_body root).
Proof.
  split.
  - intros Hex.
    assert (exists p c, select_container root = Some (p, c) /\
                        Dom.matches CONTENT_SELECTORS c = true) as (p & c & Hsel & Hc).
    { unfold select_container, Dom.or_else.
      destruct (Dom.document_querySelector [Dom.TypeSel "main"] root)
        as [[p c]|] eqn:E1.
      { exists p, c. split; [done|]. rewrite matches_content.
        by rewrite (querySelector_matches _ _ _ _ E1). }
      destruct (Dom.document_querySelector [Dom.TypeSel "article"] root)
        as [[p c]|] eqn:E2.
      { exists p, c. split; [done|]. rewrite matches_content.
        by rewrite (querySelector_matches _ _ _ _ E2), !orb_true_r. }
      destruct (Dom.document_querySelector [Dom.ClassSel "documentation"] root)
        as [[p c]|] eqn:E3.
      { exists p, c. split; [done|]. rewrite matches_content.
        by rewrite (querySelector_matches _ _ _ _ E3), !orb_true_r. }
      destruct (Dom.document_querySelector [Dom.ClassSel "notion-page-content"] root)
        as [[p c]|] eqn:E4.
      { exists p, c. split; [done|]. rewrite matches_content.
        by rewrite (querySelector_matches _ _ _ _ E4), !orb_true_r. }
      exfalso.
      apply DomFacts.querySelector_none in E1, E2, E3, E4.
      apply Exists_exists in Hex as (pn & Hin & Hm).
      rewrite Forall_forall in E1, E2, E3, E4.
      rewrite matches_content in Hm.
      by rewrite (E1 pn Hin), (E2 pn Hin), (E3 pn Hin), (E4 pn Hin) in Hm. }
    exists p, c. rewrite extract_run, Hsel. by eexists _, _.
  - intros Hnone. unfold select_container, Dom.or_else.
    assert (forall sel,
              (forall n, Dom.matches sel n = true ->
                         Dom.matches CONTENT_SELECTORS n = true) ->
              Dom.document_querySelector sel root = None) as Hq.
    { intros sel Himp. apply DomFacts.querySelector_none.
      eapply Forall_impl; [exact Hnone|]. intros pn Hpn. cbn beta in *.
      destruct (Dom.matches sel (snd pn)) eqn:Hm; [|done].
      by rewrite (Himp _ Hm) in Hpn. }
    rewrite !Hq; [done|..]; intros n Hn; rewrite matches_content, Hn;
      by rewrite ?orb_true_r.
Qed.

Lemma X11_fallback_only_without_match_witness :
  Exists (fun pn => Dom.matches CONTENT_SELECTORS (snd pn) = true)
    (Dom.subtree Sample.doc) /\
  exists p c root' content,
    select_container Sample.doc = Some (p, c) /\
    Dom.matches CONTENT_SELECTORS c = true /\
    extract Sample.all_ok Sample.doc = Ok (root', content).
Proof.
  assert (Exists (fun pn => Dom.matches CONTENT_SELECTORS (snd pn) = true)
            (Dom.subtree Sample.doc)) as Hex.
  { apply Exists_exists. exists ([1; 0], Sample.main_with_script).
    split; [|done]. cbn. do 3 right. by left. }
  split; [done|].
  exact (proj1 (X11_fallback_only_without_match Sample.all_ok Sample.doc) Hex).
Defined.

(** ** The run on a host *)

Section HostRun.

Variable host : Host.
Variable env : Env.

Lemma host_print_ok (line : string) (w : World) :
  prints_ok host -> host_print host line w = print line w.
Proof. intros Hp. unfold host_print, bind, check. by rewrite Hp. Qed.

(** When every line can be printed, [scrape_page] on the host is the
    [scrape_page] studied above. *)
Lemma host_scrape_page_ok (url output_file : string) (w : World) :
  prints_ok host ->
  host_scrape_page host env url output_file w = scrape_page env url output_file w.
Proof.
  intros Hp. rewrite scrape_page_run.
  unfold host_scrape_page, world_after, outcome, host_print, bind, try_except,
    print, modify, page_goto, page_wait_for_selector, page_evaluate_extract,
    write_file, current_url, get_page, record, set_page, set_file, check, ret,
    raise.
  destruct w as [f d out pg cs]; cbn. rewrite Hp; cbn.
  destruct (goto_fault env url) as [m|]; cbn; [rewrite Hp; cbn; same_world|].
  destruct (selector_fault env url) as [m|]; cbn; [rewrite Hp; cbn; same_world|].
  destruct (evaluate_fault env url) as [m|]; cbn; [rewrite Hp; cbn; same_world|].
  destruct (extract env (document_of env url)) as [[root' c]|m]; cbn;
    [|rewrite Hp; cbn; same_world].
  destruct (open_fault env output_file) as [m|]; cbn; [rewrite Hp; cbn; same_world|].
  destruct (write_fault env output_file (page_json url c)) as [[n m]|]; cbn;
    rewrite Hp; cbn; same_world.
Qed.

Lemma host_scrape_all_ok (urls : list string) (results : gmap string string)
    (w : World) :
  prints_ok host ->
  host_scrape_all host env urls results w = scrape_all env urls results w.
Proof.
  intros Hp. revert results w.
  induction urls as [|url rest IH]; intros results w; [done|].
  cbn [host_scrape_all scrape_all]. unfold host_scrape_one, scrape_one, bind.
  rewrite host_scrape_page_ok by done.
  destruct (scrape_page env url (output_file_of url) w) as [[content|msg] w'];
    [|done].
  unfold ret. apply IH.
Qed.

Lemma host_scrape_notion_ok (w : World) :
  prints_ok host -> host_scrape_notion host env w = scrape_notion env w.
Proof.
  intros Hp. rewrite scrape_notion_run.
  unfold host_scrape_notion, notion_world_after, notion_outcome, host_print, bind,
    print, modify, page_goto, page_wait_for_timeout, page_evaluate_body_text,
    write_file, current_url, get_page, record, set_page, set_file, check, ret,
    raise.
  destruct w as [f d out pg cs]; cbn. rewrite Hp; cbn.
  destruct (goto_fault env NOTION_URL) as [m|]; cbn; [same_world|].
  destruct (timeout_fault env NOTION_URL) as [m|]; cbn; [same_world|].
  destruct (evaluate_fault env NOTION_URL) as [m|]; cbn; [same_world|].
  destruct (Dom.document_body (document_of env NOTION_URL)) as [[p body]|]; cbn;
    [|same_world].
  destruct (open_fault env NOTION_FILE) as [m|]; cbn; [same_world|].
  destruct (write_fault env NOTION_FILE (innerText env body)) as [[n m]|]; cbn;
    [same_world|].
  rewrite Hp; cbn. same_world.
Qed.

Lemma host_print_summary_run (results : gmap string string) (w : World) :
  prints_ok host ->
  host_print_summary host results w =
    (Ok tt, mkWorld (fs w) (dirs w) (stdout w ++ summary_lines results)
                    (page w) (calls w)).
Proof.
  intros Hp.
  unfold host_print_summary, host_print, bind, check, print, modify, ret.
  destruct w as [f d out pg cs]. rewrite !Hp. cbn. same_world.
Qed.

(** The run on a host whose set-up works and whose standard output accepts
    every line: it raises when the Notion step raises, or else when
    [browser.close()] raises, and otherwise ends as [script] does. *)
Lemma host_script_run (w : World) :
  setup_ok host w -> prints_ok host ->
  host_script host env w =
    match notion_failure (notion_outcome env) with
    | Some msg => (Raised msg, before_close env w)
    | None =>
        match close_fault host with
        | Some msg => (Raised msg, closed_world env w)
        | None => script env w
        end
    end.
Proof.
  intros (Hfile & Hmk & Hstart & Hlaunch & Hcontext & Hpage) Hp.
  rewrite script_run. cbn zeta.
  unfold host_script, host_main, host_makedirs, closed_world, before_close.
  unfold bind at 1. rewrite Hfile, Hmk, Hstart, Hlaunch, Hcontext, Hpage.
  unfold bind at 1. unfold check at 1, ret at 1. unfold makedirs, modify.
  unfold bind at 1. unfold check at 1, ret at 1.
  do 3 (unfold bind at 1; unfold record at 1; unfold modify;
        unfold bind at 1; unfold check at 1, ret at 1).
  unfold bind at 1. rewrite host_scrape_all_ok, scrape_all_run by done.
  unfold bind at 1. rewrite host_scrape_notion_ok, scrape_notion_run by done.
  cbn [calls fs dirs stdout page]. rewrite <- !app_assoc. cbn [app].
  fold (prelude w).
  destruct (notion_failure (notion_outcome env)) as [msg|]; [done|].
  unfold bind at 1. unfold record at 1. unfold modify.
  unfold bind at 1.
  destruct (close_fault host) as [msg|]; cbn [check]; [done|].
  unfold ret at 1. rewrite host_print_summary_run by done.
  cbn [fs dirs stdout page calls]. by rewrite <- ?app_assoc.
Qed.

(** A failing set-up ends the script before the first page visit: no
    file is touched, nothing is printed and no page is navigated to. *)
Lemma host_script_setup_fails (w : World) :
  setup_fails host w ->
  exists msg ds cs,
    host_script host env w
      = (Raised msg, mkWorld (fs w) ds (stdout w) (page w) (calls w ++ cs)) /\
    List.filter is_goto cs = [].
Proof.
  intros Hfails. unfold host_script, host_main.
  match goal with
  | |- context [bind (host_scrape_all host env DOCS_URLS ∅) ?f] =>
      generalize (bind (host_scrape_all host env DOCS_URLS ∅) f)
  end.
  intros k.
  unfold host_makedirs, bind, check, record, modify, makedirs, raise, ret.
  unfold setup_fails in Hfails.
  destruct w as [f d out pg cs0]; cbn in *.
  destruct (f !! "docs_scraped") as [x|] eqn:Hfile.
  { exists FILE_EXISTS, d, []. by rewrite app_nil_r. }
  destruct (makedirs_fault host) as [m|] eqn:Hmk; cbn.
  { exists m, d, []. by rewrite app_nil_r. }
  destruct (start_fault host) as [m|] eqn:Hstart; cbn.
  { eexists m, _, []. by rewrite app_nil_r. }
  destruct (launch_fault host) as [m|] eqn:Hlaunch; cbn.
  { by eexists m, _, [Launch]. }
  destruct (context_fault host) as [m|] eqn:Hcontext; cbn.
  { eexists m, _, [Launch; NewContext USER_AGENT]. by rewrite <- app_assoc. }
  destruct (new_page_fault host) as [m|] eqn:Hpage; cbn.
  { eexists m, _, [Launch; NewContext USER_AGENT; NewPage].
    by rewrite <- !app_assoc. }
  exfalso. destruct Hfails as [[? ?]|[[? ?]|[[? ?]|[[? ?]|[[? ?]|[? ?]]]]]];
    congruence.
Qed.

End HostRun.

Section HostFinal.

Variable host : Host.
Variable env : Env.

Lemma host_final_fs (w : World) :
  setup_ok host w -> prints_ok host ->
  fs (host_final_world host env w) = fs (final_world env w).
Proof.
  intros Hs Hp. unfold host_final_world. rewrite host_script_run by done.
  rewrite final_world_run. cbn zeta. unfold closed_world.
  destruct (notion_failure (notion_outcome env)); [done|].
  destruct (close_fault host); [done|].
  rewrite script_run. cbn zeta.
  by destruct (notion_failure (notion_outcome env)).
Qed.

Lemma host_final_dirs (w : World) :
  setup_ok host w -> prints_ok host ->
  dirs (host_final_world host env w) = dirs (prelude w).
Proof.
  intros Hs Hp. unfold host_final_world. rewrite host_script_run by done.
  unfold closed_world.
  destruct (notion_failure (notion_outcome env)) eqn:Hn;
    [|destruct (close_fault host)]; cbn [snd dirs].
  - unfold before_close, notion_world_after. cbn [dirs]. apply loop_dirs.
  - unfold before_close, notion_world_after. cbn [dirs]. apply loop_dirs.
  - apply final_dirs.
Qed.

Lemma host_final_stdout (w : World) :
  setup_ok host w -> prints_ok host ->
  stdout (host_final_world host env w) =
    stdout w ++
    (concat (map (fun u => lines_of u (output_file_of u)
                             (outcome env u (output_file_of u))) DOCS_URLS) ++
     notion_lines (notion_outcome env) ++
     match notion_failure (notion_outcome env), close_fault host with
     | None, None => summary_lines (loop_results env DOCS_URLS ∅)
     | _, _ => []
     end).
Proof.
  intros Hs Hp. unfold host_final_world. rewrite host_script_run by done.
  unfold closed_world.
  destruct (notion_failure (notion_outcome env)) eqn:Hn;
    [|destruct (close_fault host)]; cbn [snd stdout].
  - by rewrite before_close_stdout, app_nil_r.
  - by rewrite before_close_stdout, app_nil_r.
  - fold (final_world env w). by rewrite final_stdout, Hn.
Qed.

Lemma host_final_calls (w : World) :
  setup_ok host w -> prints_ok host ->
  calls (host_final_world host env w) =
    calls w ++ [Launch; NewContext USER_AGENT; NewPage] ++
    (concat (map (fun u => calls_of u (outcome env u (output_file_of u))) DOCS_URLS) ++
     notion_calls (notion_outcome env)) ++
    match notion_failure (notion_outcome env) with
    | Some _ => []
    | None => [Close]
    end.
Proof.
  intros Hs Hp. unfold host_final_world. rewrite host_script_run by done.
  unfold closed_world.
  destruct (notion_failure (notion_outcome env)) eqn:Hn;
    [|destruct (close_fault host)]; cbn [snd calls].
  - by rewrite before_close_calls, <- !app_assoc, app_nil_r.
  - by rewrite before_close_calls, <- !app_assoc.
  - fold (final_world env w). by rewrite final_calls, Hn.
Qed.

Lemma outcome_saved_extract (url output_file : string) (root' : Dom.Node)
    (content : Content) :
  outcome env url output_file = Saved root' content ->
  extract env (document_of env url) = Ok (root', content).
Proof.
  unfold outcome.
  destruct (goto_fault env url); [done|].
  destruct (selector_fault env url); [done|].
  destruct (evaluate_fault env url); [done|].
  destruct (extract env (document_of env url)) as [[r c]|]; [|done].
  destruct (open_fault env output_file); [done|].
  destruct (write_fault env output_file (page_json url c)) as [[n m]|]; [done|].
  by intros [= -> ->].
Qed.

Lemma is_saved_no_step_raised (url : string) :
  is_saved env url = no_step_raised env url.
Proof.
  unfold is_saved, no_step_raised.
  destruct (outcome env url (output_file_of url)); cbn;
    by rewrite ?bool_decide_eq_true_2, ?bool_decide_eq_false_2
      by (done || (by eexists) || (by intros [? ?])).
Qed.

End HostFinal.

(** *** C8: the exit status *)

(** C8, as stated, fails: the steps around the page visits are outside any
    [try] as well.  With every fixed-list URL and the Notion page in order,
    the process exits with status 1 when the browser cannot be launched,
    when [docs_scraped] is a regular file, and when standard output cannot
    encode the check mark and the cross. *)
Lemma C8_counterexample :
  notion_failure (notion_outcome Sample.all_ok) = None /\
  host_exit_code SampleHost.no_browser Sample.all_ok Sample.empty_world = 1 /\
  host_exit_code SampleHost.fine Sample.all_ok SampleHost.file_in_the_way = 1 /\
  host_exit_code SampleHost.ascii_stdout Sample.all_ok Sample.empty_world = 1.
Proof. split_and!; by vm_compute. Qed.

(** C8, amended: provided the output directory can be created, the browser
    session is acquired and standard output accepts every line, the process
    exits with status 0 however many fixed-list URLs succeeded, unless the
    Notion step raises or [browser.close()] raises, in which case it exits
    with status 1; the status is the same for two environments in which the
    Notion step ends the same way, however their fixed-list URLs fared.
    When the directory cannot be created or the session cannot be acquired,
    the process exits with status 1 too. *)
Theorem C8_exit_status (host : Host) (env : Env) (w : World) :
  (setup_ok host w -> prints_ok host ->
   host_exit_code host env w
     = match notion_failure (notion_outcome env), close_fault host with
       | None, None => 0
       | _, _ => 1
       end /\
   forall env' : Env,
     notion_outcome env' = notion_outcome env ->
     host_exit_code host env' w = host_exit_code host env w) /\
  (setup_fails host w -> host_exit_code host env w = 1).
Proof.
  assert (forall e, setup_ok host w -> prints_ok host ->
            host_exit_code host e w
              = match notion_failure (notion_outcome e), close_fault host with
                | None, None => 0
                | _, _ => 1
                end) as Hcode.
  { intros e Hs Hp. unfold host_exit_code. rewrite host_script_run by done.
    destruct (notion_failure (notion_outcome e)) eqn:Hn; [done|].
    destruct (close_fault host); [done|].
    rewrite script_run. cbn zeta. by rewrite Hn. }
  split.
  - intros Hs Hp. split; [by apply Hcode|].
    intros env' Heq. by rewrite !Hcode, Heq.
  - intros Hfails.
    destruct (host_script_setup_fails host env w Hfails) as (msg & ds & cs & Hrun & _).
    unfold host_exit_code. by rewrite Hrun.
Qed.

Lemma C8_exit_status_witness :
  setup_ok SampleHost.fine Sample.empty_world /\
  prints_ok SampleHost.fine /\
  host_exit_code SampleHost.fine Sample.statuspages_times_out Sample.empty_world = 0.
Proof.
  assert (setup_ok SampleHost.fine Sample.empty_world) as Hs
    by (by repeat split).
  assert (prints_ok SampleHost.fine) as Hp by (by intros line).
  split_and!; [done..|].
  exact (proj1 (proj1 (C8_exit_status SampleHost.fine Sample.statuspages_times_out
                         Sample.empty_world) Hs Hp)).
Defined.

(** *** C3: a failing URL on a host *)

(** C3, as stated, fails in two ways.  First, one failing URL does not mean
    seven JSON files: when closing [overview.json] raises after every byte
    has been written, that URL is the only one that fails, and all eight
    output files hold their complete JSON after the run.  Second, a failure
    is not always caught: when standard output cannot encode the cross, the
    [print] in the handler raises and [scrape_page] raises; on such a host
    the run ends at the first page it visits and never navigates to the
    Notion page. *)
Lemma C3_counterexample :
  (List.filter (fun u => negb (no_step_raised SampleHost.late_write_fault u)) DOCS_URLS
     = [Sample.OVERVIEW] /\
   Forall (fun u =>
             fs (host_final_world SampleHost.fine SampleHost.late_write_fault
                   Sample.empty_world) !! output_file_of u
             = Some (page_json u SampleHost.doc_content)) DOCS_URLS /\
   length DOCS_URLS = 8) /\
  (failure (outcome Sample.statuspages_times_out Sample.STATUSPAGES
              (output_file_of Sample.STATUSPAGES))
     = Some "Timeout 30000ms exceeded." /\
   fst (host_scrape_page SampleHost.ascii_stdout Sample.statuspages_times_out
          Sample.STATUSPAGES (output_file_of Sample.STATUSPAGES) Sample.empty_world)
     = Raised "'ascii' codec can't encode character" /\
   List.filter is_goto
     (calls (host_final_world SampleHost.ascii_stdout Sample.statuspages_times_out
               Sample.empty_world))
     = [Goto Sample.OVERVIEW]).
Proof.
  split_and!; try (by vm_compute);
    by apply (bool_decide_unpack _); vm_compute.
Qed.

(** C3, amended: provided standard output accepts every line, a failure in
    the processing of a fixed-list URL (navigation, selector wait,
    extraction, opening or writing the file) is caught by [scrape_page],
    which prints one line with the URL and the message of the exception and
    returns [None]; the page was navigated to once, and the loop goes on
    with the next entry, the results as they were.  In particular, when the
    directory was created and the session acquired and that URL is the only
    one of the eight that fails: each of the seven others has its complete
    JSON file, holding the URL and the content extracted from its page; the
    path of the failed URL holds what it held before the run when the
    failure came before the write, and the bytes written before the failure
    when it came during the write, so that seven of the eight paths hold a
    file when the failure came before the write and the path was free; the
    only error line printed is the one of the failed URL; and the run
    navigates to the Notion page. *)
Theorem C3_failure_isolated (host : Host) (env : Env) (w : World)
    (failed msg : string) :
  prints_ok host ->
  failed ∈ DOCS_URLS ->
  failure (outcome env failed (output_file_of failed)) = Some msg ->
  (forall (w0 : World) (rest : list string) (results : gmap string string),
     let w1 := snd (host_scrape_page host env failed (output_file_of failed) w0) in
     fst (host_scrape_page host env failed (output_file_of failed) w0) = Ok None /\
     stdout w1 = stdout w0 ++ ["Scraping: " +:+ failed; error_line failed msg] /\
     (exists more, calls w1 = calls w0 ++ Goto failed :: more /\
                   forall u, Goto u ∉ more) /\
     host_scrape_all host env (failed :: rest) results w0
       = host_scrape_all host env rest results w1) /\
  (setup_ok host w ->
   (forall u, u ∈ DOCS_URLS -> u <> failed ->
      failure (outcome env u (output_file_of u)) = None) ->
   let final := host_final_world host env w in
   (forall u, u ∈ DOCS_URLS -> u <> failed ->
      exists root' content,
        extract env (document_of env u) = Ok (root', content) /\
        fs final !! output_file_of u = Some (page_json u content) /\
        Json.loads (page_json u content)
          = Some [("url", u); ("title", title content); ("text", text content);
                  ("html", html content)]) /\
   length (List.filter (fun u => negb (String.eqb u failed)) DOCS_URLS) = 7 /\
   (forall step,
      failed_step (outcome env failed (output_file_of failed)) = Some step ->
      step <> FileWrite ->
      fs final !! output_file_of failed = fs w !! output_file_of failed /\
      (fs w !! output_file_of failed = None ->
       length (List.filter
                 (fun u => bool_decide (is_Some (fs final !! output_file_of u)))
                 DOCS_URLS) = 7)) /\
   (forall root' content n m,
      outcome env failed (output_file_of failed) = WriteFailed root' content n m ->
      fs final !! output_file_of failed
        = Some (substring 0 n (page_json failed content))) /\
   (exists new_lines,
      stdout final = stdout w ++ new_lines /\
      List.filter is_error_line new_lines = [error_line failed msg]) /\
   Goto NOTION_URL ∈ calls final).
Proof.
  intros Hp Hin Hfail. split.
  - intros w0 rest results w1. subst w1.
    rewrite host_scrape_all_ok, host_scrape_page_ok by done.
    rewrite (host_scrape_all_ok host env rest) by done.
    cbn [scrape_all]. unfold bind at 1.
    rewrite scrape_one_run, scrape_page_run. cbn [fst snd].
    unfold results_after, recorded, world_after, lines_of. rewrite Hfail.
    cbn [stdout calls].
    destruct (outcome env failed (output_file_of failed)) as [m|m|m|r c m|r c n m|r c];
      cbn in Hfail; simplify_eq; cbn [returned calls_of];
      (split_and!; [done|done| |done]);
      eexists; (split; [reflexivity|]); intros u Hu;
      repeat (apply elem_of_cons in Hu as [?|Hu]; [done|]);
      by apply elem_of_nil in Hu.
  - intros Hs Hothers final. subst final.
    assert (forall u, u ∈ DOCS_URLS ->
              fs (host_final_world host env w) !! output_file_of u
              = file_after u (output_file_of u) (outcome env u (output_file_of u))
                  (fs w !! output_file_of u)) as Hfile.
    { intros u Hu. rewrite host_final_fs by done. by apply final_file_of_url. }
    split_and!.
    + intros u Hu Hne. rewrite Hfile by done.
      specialize (Hothers u Hu Hne).
      destruct (outcome env u (output_file_of u)) as [m|m|m|r c m|r c n m|r c] eqn:Ho;
        cbn in Hothers; simplify_eq.
      exists r, c. split_and!.
      * by eapply outcome_saved_extract.
      * done.
      * apply JsonFacts.loads_dumps.
    + by apply docs_urls_without_one.
    + intros step Hstep Hnot. rewrite (Hfile failed Hin).
      assert (file_after failed (output_file_of failed)
                (outcome env failed (output_file_of failed))
                (fs w !! output_file_of failed)
              = fs w !! output_file_of failed) as Hsame.
      { destruct (outcome env failed (output_file_of failed)); cbn in Hstep |- *;
          by simplify_eq. }
      split; [done|]. intros Hfree.
      rewrite <- (docs_urls_without_one failed Hin). f_equal.
      apply List.filter_ext_in. intros u Hu. apply list_elem_of_In in Hu.
      rewrite (Hfile u Hu).
      destruct (String.eqb_spec u failed) as [->|Hne]; cbn [negb].
      * rewrite Hsame, Hfree. apply bool_decide_eq_false. by intros [? ?].
      * specialize (Hothers u Hu Hne).
        destruct (outcome env u (output_file_of u)); cbn in Hothers; simplify_eq.
        apply bool_decide_eq_true. by eexists.
    + intros r c n m Ho. by rewrite (Hfile failed Hin), Ho.
    + eexists. split; [by apply host_final_stdout|].
      rewrite !List.filter_app, filter_concat, map_map, error_lines_notion.
      rewrite (concat_single _ _ failed (error_line failed msg)).
      * destruct (notion_failure (notion_outcome env)); [done|].
        by destruct (close_fault host).
      * apply docs_urls_distinct.
      * done.
      * by rewrite error_lines_of, Hfail.
      * intros u Hu Hne. by rewrite error_lines_of, (Hothers u Hu Hne).
    + rewrite host_final_calls by done.
      apply elem_of_app. right. apply elem_of_app. right.
      apply elem_of_app. left. apply elem_of_app. right.
      destruct (notion_outcome env); by left.
Qed.

Lemma C3_failure_isolated_witness :
  prints_ok SampleHost.fine /\
  Sample.STATUSPAGES ∈ DOCS_URLS /\
  failure (outcome Sample.statuspages_times_out Sample.STATUSPAGES
             (output_file_of Sample.STATUSPAGES))
    = Some "Timeout 30000ms exceeded." /\
  setup_ok SampleHost.fine Sample.empty_world /\
  (forall u, u ∈ DOCS_URLS -> u <> Sample.STATUSPAGES ->
     failure (outcome Sample.statuspages_times_out u (output_file_of u)) = None) /\
  Goto NOTION_URL
    ∈ calls (host_final_world SampleHost.fine Sample.statuspages_times_out
               Sample.empty_world).
Proof.
  assert (prints_ok SampleHost.fine) as Hp by (by intros line).
  assert (Sample.STATUSPAGES ∈ DOCS_URLS) as Hin
    by (by apply (bool_decide_unpack _); vm_compute).
  assert (failure (outcome Sample.statuspages_times_out Sample.STATUSPAGES
                     (output_file_of Sample.STATUSPAGES))
          = Some "Timeout 30000ms exceeded.") as Hfail by (by vm_compute).
  assert (setup_ok SampleHost.fine Sample.empty_world) as Hs
    by (by repeat split).
  assert (forall u, u ∈ DOCS_URLS -> u <> Sample.STATUSPAGES ->
            failure (outcome Sample.statuspages_times_out u (output_file_of u)) = None)
    as Hothers.
  { intros u Hu Hne. apply list_elem_of_In in Hu.
    repeat (destruct Hu as [<-|Hu]; [by vm_compute || by destruct Hne|]).
    destruct Hu. }
  split_and!; [done..|].
  exact (proj2 (proj2 (proj2 (proj2 (proj2
           (proj2 (C3_failure_isolated SampleHost.fine Sample.statuspages_times_out
                     Sample.empty_world _ _ Hp Hin Hfail) Hs Hothers)))))).
Defined.

(** *** The trace, the lines and the files of a run on a host *)

(** X4: provided the output directory is created, the browser session is
    acquired and standard output accepts every line, a run makes its
    browser calls in one order, whatever page step fails: launch, new
    context with the fixed user agent, new page; then the pages, each
    fixed-list URL navigated to exactly once and in the order of the list,
    the Notion page last; and [browser.close()] comes after all of them,
    and only when the Notion step did not raise.  When the directory cannot
    be created or the session cannot be acquired, no page is navigated
    to. *)
Theorem X4_navigation_order (host : Host) (env : Env) (w : World) :
  (setup_ok host w -> prints_ok host ->
   exists visits,
     calls (host_final_world host env w) =
       calls w ++ [Launch; NewContext USER_AGENT; NewPage] ++ visits ++
       match notion_failure (notion_outcome env) with
       | Some _ => []
       | None => [Close]
       end /\
     List.filter is_goto visits = map Goto DOCS_URLS ++ [Goto NOTION_URL] /\
     (Close ∉ visits)) /\
  (setup_fails host w ->
   exists new_calls,
     calls (host_final_world host env w) = calls w ++ new_calls /\
     List.filter is_goto new_calls = []).
Proof.
  split.
  - intros Hs Hp. eexists. split_and!.
    + by apply host_final_calls.
    + by rewrite List.filter_app, gotos_of_loop, gotos_of_notion.
    + intros Hin. apply elem_of_app in Hin as [Hin|Hin].
      * apply elem_of_concat in Hin as (l & Hin & Hl).
        apply list_elem_of_fmap in Hl as (u & -> & _).
        by apply calls_of_no_close in Hin.
      * by apply notion_calls_no_close in Hin.
  - intros Hfails.
    destruct (host_script_setup_fails host env w Hfails)
      as (msg & ds & cs & Hrun & Hcs).
    exists cs. unfold host_final_world. by rewrite Hrun.
Qed.

Lemma X4_navigation_order_witness :
  setup_ok SampleHost.fine Sample.empty_world /\
  prints_ok SampleHost.fine /\
  exists visits,
    calls (host_final_world SampleHost.fine Sample.mixed Sample.empty_world) =
      calls Sample.empty_world ++ [Launch; NewContext USER_AGENT; NewPage] ++
      visits ++
      match notion_failure (notion_outcome Sample.mixed) with
      | Some _ => []
      | None => [Close]
      end /\
    List.filter is_goto visits = map Goto DOCS_URLS ++ [Goto NOTION_URL].
Proof.
  assert (setup_ok SampleHost.fine Sample.empty_world) as Hs
    by (by repeat split).
  assert (prints_ok SampleHost.fine) as Hp by (by intros line).
  split_and!; [done..|].
  destruct (proj1 (X4_navigation_order SampleHost.fine Sample.mixed
                     Sample.empty_world) Hs Hp) as (visits & H1 & H2 & _).
  by exists visits.
Defined.

(** X7: provided the output directory is created, the browser session is
    acquired and standard output accepts every line, a run prints one line
    ["Scraping: <url>"] for each fixed-list URL, in the order of the list,
    and for each URL exactly one verdict: the error lines and the
    ["Saved to"] lines together are eight, and the ["Saved to"] lines are
    those of the URLs in whose processing no step raised, in the order of
    the list. *)
Theorem X7_progress_lines (host : Host) (env : Env) (w : World) :
  setup_ok host w -> prints_ok host ->
  exists new_lines,
    stdout (host_final_world host env w) = stdout w ++ new_lines /\
    List.filter is_scraping_line new_lines
      = map (fun u => "Scraping: " +:+ u) DOCS_URLS /\
    List.filter is_saved_line new_lines
      = map (fun u => "✅ Saved to " +:+ output_file_of u)
            (List.filter (no_step_raised env) DOCS_URLS) /\
    length (List.filter is_error_line new_lines)
      + length (List.filter is_saved_line new_lines) = 8.
Proof.
  intros Hs Hp. eexists. split; [by apply host_final_stdout|].
  set (tail := match notion_failure (notion_outcome env), close_fault host with
               | None, None => summary_lines (loop_results env DOCS_URLS ∅)
               | _, _ => []
               end).
  assert (forall f,
            List.filter f (notion_lines (notion_outcome env)) = [] ->
            List.filter f (summary_lines (loop_results env DOCS_URLS ∅)) = [] ->
            List.filter f
              (concat (map (fun u => lines_of u (output_file_of u)
                                       (outcome env u (output_file_of u))) DOCS_URLS) ++
               notion_lines (notion_outcome env) ++ tail)
            = List.filter f
                (concat (map (fun u => lines_of u (output_file_of u)
                                         (outcome env u (output_file_of u)))
                           DOCS_URLS))) as Hloop.
  { intros f Hn Hsum. rewrite !List.filter_app, Hn. unfold tail.
    destruct (notion_failure (notion_outcome env)); [by rewrite !app_nil_r|].
    destruct (close_fault host); [by rewrite !app_nil_r|].
    by rewrite Hsum, !app_nil_r. }
  assert (forall o, List.filter is_scraping_line (notion_lines o) = []) as Hn1
    by (by intros []).
  assert (forall o, List.filter is_saved_line (notion_lines o) = []) as Hn2
    by (by intros []).
  assert (List.filter (is_saved env) DOCS_URLS
          = List.filter (no_step_raised env) DOCS_URLS) as Hsame.
  { apply List.filter_ext. intros u. apply is_saved_no_step_raised. }
  rewrite !Hloop by (apply Hn1 || apply Hn2 || apply error_lines_notion || done).
  rewrite <- Hsame. split_and!.
  - apply scraping_lines_loop.
  - apply saved_lines_loop.
  - rewrite saved_lines_loop, length_map. apply (error_lines_loop env DOCS_URLS).
Qed.

Lemma X7_progress_lines_witness :
  setup_ok SampleHost.fine Sample.empty_world /\
  prints_ok SampleHost.fine /\
  exists new_lines,
    stdout (host_final_world SampleHost.fine Sample.mixed Sample.empty_world)
      = stdout Sample.empty_world ++ new_lines /\
    List.filter is_scraping_line new_lines
      = map (fun u => "Scraping: " +:+ u) DOCS_URLS.
Proof.
  assert (setup_ok SampleHost.fine Sample.empty_world) as Hs
    by (by repeat split).
  assert (prints_ok SampleHost.fine) as Hp by (by intros line).
  split_and!; [done..|].
  destruct (X7_progress_lines SampleHost.fine Sample.mixed Sample.empty_world Hs Hp)
    as (new_lines & H1 & H2 & _).
  by exists new_lines.
Defined.

(** X13: provided the output directory is created, the browser session is
    acquired and standard output accepts every line, the run leaves nothing
    at the path [docs_scraped] itself, so the set-up works again for a
    second run, and a second run in the same environment leaves the files
    as the first run left them; [docs_scraped] is then among the
    directories.  When [docs_scraped] is a regular file, [os.makedirs]
    raises and the script ends there, the world as it was. *)
Theorem X13_second_run (host : Host) (env : Env) (w : World) :
  (setup_ok host w -> prints_ok host ->
   setup_ok host (host_final_world host env w) /\
   fs (host_final_world host env (host_final_world host env w))
     = fs (host_final_world host env w) /\
   "docs_scraped" ∈ dirs (host_final_world host env w)) /\
  (is_Some (fs w !! "docs_scraped") ->
   host_script host env w = (Raised FILE_EXISTS, w)).
Proof.
  split.
  - intros Hs Hp.
    assert (setup_ok host (host_final_world host env w)) as Hs2.
    { destruct Hs as (Hfile & Hrest). split; [|done].
      rewrite host_final_fs by done. rewrite final_file_other; [done| |done].
      by apply (bool_decide_unpack _); vm_compute. }
    split_and!; [done| |].
    + pose proof (host_final_fs host env w Hs Hp) as Hfs.
      rewrite (host_final_fs host env (host_final_world host env w)) by done.
      rewrite Hfs.
      apply map_eq. intros path.
      destruct (decide (path ∈ map output_file_of DOCS_URLS)) as [Hin|Hout].
      * apply list_elem_of_fmap in Hin as (url & -> & Hurl).
        rewrite (final_file_of_url env (host_final_world host env w)) by done.
        by rewrite Hfs, final_file_of_url, file_after_twice.
      * destruct (decide (path = NOTION_FILE)) as [->|Hne].
        -- rewrite (final_notion_file env (host_final_world host env w)).
           by rewrite Hfs, final_notion_file, notion_file_after_twice.
        -- rewrite (final_file_other env (host_final_world host env w)) by done.
           by rewrite Hfs.
    + rewrite host_final_dirs by done. cbn [prelude dirs].
      case_bool_decide; [done|]. apply elem_of_app. right. by left.
  - intros [x Hx]. unfold host_script, host_makedirs, bind. by rewrite Hx.
Qed.

Lemma X13_second_run_witness :
  setup_ok SampleHost.fine Sample.stale_world /\
  prints_ok SampleHost.fine /\
  is_Some (fs SampleHost.file_in_the_way !! "docs_scraped") /\
  setup_ok SampleHost.fine
    (host_final_world SampleHost.fine Sample.mixed Sample.stale_world) /\
  host_script SampleHost.fine Sample.mixed SampleHost.file_in_the_way
    = (Raised FILE_EXISTS, SampleHost.file_in_the_way).
Proof.
  assert (setup_ok SampleHost.fine Sample.stale_world) as Hs
    by (by repeat split).
  assert (prints_ok SampleHost.fine) as Hp by (by intros line).
  assert (is_Some (fs SampleHost.file_in_the_way !! "docs_scraped")) as Hfile
    by (by eexists; vm_compute).
  split_and!; [done..| |].
  - exact (proj1 (proj1 (X13_second_run SampleHost.fine Sample.mixed
                           Sample.stale_world) Hs Hp)).
  - exact (proj2 (X13_second_run SampleHost.fine Sample.mixed
                    SampleHost.file_in_the_way) Hfile).
Defined.

(** *** The bytes of a JSON file *)

Lemma escape_char_above_space (c : ascii) :
  count_if below_space (Json.escape_char c) = 0.
Proof. destruct c as [[] [] [] [] [] [] [] []]; reflexivity. Qed.

Lemma escape_above_space (s : string) : count_if below_space (Json.escape s) = 0.
Proof.
  induction s as [|c s IH]; [done|].
  cbn [Json.escape]. by rewrite count_if_append, escape_char_above_space, IH.
Qed.

Lemma line_feed_below_space (s : string) :
  count_if is_line_feed s <= count_if below_space s.
Proof.
  induction s as [|c s IH]; [done|]. cbn [count_if].
  assert (is_line_feed c = true -> below_space c = true) as Himp.
  { unfold is_line_feed. intros H. by apply Ascii.eqb_eq in H as ->. }
  destruct (is_line_feed c); [rewrite Himp by done; lia|].
  destruct (below_space c); lia.
Qed.

(** X12: the JSON text written for a page has exactly five LF bytes, those
    of the [indent=2] layout, and no other byte below 0x20: the bytes below
    0x20 of the URL, the title, the text and the markup are written as
    escapes.  Every byte from 0x7F up is written as it is, so DEL and the
    UTF-8 bytes of the line separators U+0085 and U+2028 appear raw in the
    file. *)
Theorem X12_line_feeds (url : string) (content : Content) :
  count_if below_space (page_json url content) = 5 /\
  count_if is_line_feed (page_json url content) = 5 /\
  (forall s, count_if below_space (Json.escape s) = 0) /\
  (forall c : ascii, 127 <= nat_of_ascii c -> Json.escape_char c = String c EmptyString).
Proof.
  assert (count_if below_space (page_json url content) = 5) as Hlow.
  { rewrite page_json_layout, !count_if_append, !escape_above_space. reflexivity. }
  split_and!; [done| |apply escape_above_space|].
  - pose proof (line_feed_below_space (page_json url content)) as Hle.
    assert (5 <= count_if is_line_feed (page_json url content)); [|lia].
    rewrite page_json_layout, !count_if_append.
    change (count_if is_line_feed nl) with 1.
    change (count_if is_line_feed "{") with 0.
    lia.
  - intros c Hc. apply JsonFacts.escape_char_plain; lia.
Qed.
